(** * Mint status resolution of the indexer: a shallow embedding

    Source files embedded here:
    - [packages/indexer/src/orderbook/mints/calldata/helpers.ts]
      ([toSafeTimestamp], [toSafeNumber], [getAmountMinted],
      [getCurrentSupply], [getStatus]);
    - the earlier revision of the same helpers (module [Legacy]);
    - the other helpers of helpers.ts ([fetchMetadata], [getContractKind],
      [getMaxSupply]) and
      [packages/indexer/src/orderbook/orders/looks-rare-v2/build/utils.ts]
      ([getBuildInfo], module [LooksRareV2]).

    Outside these files and modelled by what they do: [bn] and [toBuffer]
    of [@/common/utils] ([BigNumber.from] of ethers, and hexadecimal
    decoding into a [Buffer]), [now] (a clock reading, passed as an
    argument), and [idb] of [@/common/db] (the [one] and [oneOrNone]
    fetches of pg-promise over the three tables the queries name).

    Conventions.  JavaScript values are modelled by the data they carry:
    an integer-valued [number] and a [BigNumber] as [Z], a string as
    [string], an optional field as [option].  A call that can throw
    returns a [Result]; the asynchronous functions that talk to the data
    store are functions of the store that also return the list of queries
    they issued. *)

From Stdlib Require Import ZArith List String Ascii Bool Lia.
From Stdlib Require Import Decimal DecimalString DecimalPos DecimalZ HexString.
From Stdlib Require Import NArith.
Import ListNotations.

#[local] Open Scope string_scope.
#[local] Open Scope list_scope.
#[local] Open Scope Z_scope.

(** ** Failures *)

Inductive QueryResultErrorCode : Type :=
| noData      (* [one] received no row *)
| multiple.   (* [one] / [oneOrNone] received more than one row *)

Inductive Error : Type :=
| InvalidBigNumber                          (* BigNumber.from: not a number *)
| NumericFault                              (* overflow of a native number *)
| DataUnavailable                           (* the store did not answer *)
| InvalidQueryParameter                     (* the store rejected a parameter *)
| QueryResultError (c : QueryResultErrorCode).

Inductive Result (A : Type) : Type :=
| Ok (a : A)
| Err (e : Error).

Arguments Ok {A} a.
Arguments Err {A} e.

Definition bindR {A B : Type} (r : Result A) (k : A -> Result B) : Result B :=
  match r with
  | Ok a => k a
  | Err e => Err e
  end.

Declare Scope result_scope.
Delimit Scope result_scope with result.
Notation "x <- e ;; k" := (bindR e (fun x => k))
  (at level 61, e at next level, right associativity) : result_scope.

(** ** Big numbers ([@ethersproject/bignumber], through [bn] of
    [@/common/utils]) *)

Module BigNumber.

(** The forms of [BigNumberish] that reach the sanitizers: a native
    number (integer-valued), a string, a [BigNumber] object and a native
    [bigint].  Byte arrays are not modelled. *)
Inductive BigNumberish : Type :=
| JsNumber (n : Z)
| JsString (s : string)
| JsBigNumber (n : Z)
| JsBigInt (n : Z).

(** [Number.MAX_SAFE_INTEGER], the guard of [BigNumber.from] on native
    numbers. *)
Definition MAX_SAFE : Z := 9007199254740991.

(** [value.toString()] of a big number: canonical decimal digits with a
    leading [-] for negative values. *)
Definition toString (z : Z) : string :=
  NilZero.string_of_int (Z.to_int z).

(** A string matching [/^-?[0-9]+$/], read in base ten. *)
Definition parseDecimal (s : string) : option Z :=
  option_map Z.of_int (NilZero.int_of_string s).

Fixpoint allHexDigits (s : string) : bool :=
  match s with
  | EmptyString => true
  | String c s' =>
      match HexString.ascii_to_digit c with
      | Some _ => allHexDigits s'
      | None => false
      end
  end.

(** One or more hexadecimal digits, either case, read in base sixteen. *)
Definition parseHexDigits (digits : string) : option Z :=
  match digits with
  | EmptyString => None
  | _ =>
      if allHexDigits digits
      then Some (Z.of_N (HexString.Raw.to_N digits 0%N))
      else None
  end.

(** A string that [BigNumber.from] takes for hexadecimal, pattern
    [/^-?0x[0-9a-f]+$/i]: an optional sign, the prefix, at least one
    digit.  The bare prefix is no number, and minus zero is zero.  The
    pattern lets an upper-case [0X] through as well, but [toHex] then puts
    a second prefix before it and no later operation ([toString], [eq],
    [gte], [lte]) can read the value; every [bn] of a text is read at once
    in these files, so such a text counts as one that [bn] rejects. *)
Definition parseHex (s : string) : option Z :=
  match s with
  | String "-" (String "0" (String "x" digits)) =>
      option_map Z.opp (parseHexDigits digits)
  | String "0" (String "x" digits) => parseHexDigits digits
  | _ => None
  end.

(** [BigNumber.from] on a string: hexadecimal or decimal (no text is
    both), anything else is an "invalid BigNumber string". *)
Definition fromString (s : string) : Result Z :=
  match parseDecimal s with
  | Some z => Ok z
  | None =>
      match parseHex s with
      | Some z => Ok z
      | None => Err InvalidBigNumber
      end
  end.

(** [BigNumber.from(value)], which is what [bn] is. *)
Definition bn (value : BigNumberish) : Result Z :=
  match value with
  | JsBigNumber n => Ok n
  | JsString s => fromString s
  | JsNumber n =>
      if (MAX_SAFE <=? n) || (n <=? - MAX_SAFE)
      then Err NumericFault
      else fromString (toString n)
  | JsBigInt n => fromString (toString n)
  end.

(** [toNumber()]: fails beyond 53 bits of magnitude. *)
Definition toNumber (z : Z) : Result Z :=
  if Z.abs z <? 2 ^ 53 then Ok z else Err NumericFault.

(** JavaScript truthiness of an optional [BigNumberish]: [undefined],
    the number [0], the empty string and [0n] are falsy, every object
    (so every [BigNumber], zero included) is truthy. *)
Definition truthy (value : option BigNumberish) : bool :=
  match value with
  | None => false
  | Some (JsNumber n) => negb (n =? 0)
  | Some (JsString s) => negb (s =? EmptyString)%string
  | Some (JsBigNumber _) => true
  | Some (JsBigInt n) => negb (n =? 0)
  end.

End BigNumber.

Import BigNumber.

(** ** Sanitizers *)

(** [toSafeTimestamp], helpers.ts lines 19-26.  [bn(value)] is evaluated
    a second time on the returning branch, as in the source. *)
Definition toSafeTimestamp (value : option BigNumberish) : Result (option Z) :=
  if negb (truthy value) then Ok None
  else
    match value with
    | None => Ok None
    | Some v =>
        (converted <- bn v ;;
         if (converted =? 0) || (9999999999 <=? converted)
         then Ok None
         else (again <- bn v ;; n <- toNumber again ;; Ok (Some n)))%result
    end.

(** The literals of the array in [toSafeNumber], in source order. *)
Definition sentinels : list string :=
  [ "0";
    "2147483647";
    "4294967295";
    "18446744073709551615";
    "340282366920938463463374607431768211455";
    "115792089237316195423570985008687907853269984665640564039457584007913129639935" ].

(** [Array.prototype.includes] on strings. *)
Definition includes (l : list string) (s : string) : bool :=
  existsb (String.eqb s) l.

(** [toSafeNumber], helpers.ts lines 29-50. *)
Definition toSafeNumber (value : option BigNumberish) : Result (option string) :=
  if negb (truthy value) then Ok None
  else
    match value with
    | None => Ok None
    | Some v =>
        (converted <- bn v ;;
         if includes sentinels (toString converted)
         then Ok None
         else Ok (Some (toString converted)))%result
    end.

(** ** The data store *)

(** A [Buffer]: a sequence of byte values. *)
Definition Buffer : Type := list N.

(** [Buffer.from(text, "hex")]: two digits per byte, decoding stops at the
    first pair that is not hexadecimal, an odd last digit is dropped. *)
Fixpoint hexDecode (s : string) : Buffer :=
  match s with
  | String a (String b rest) =>
      match HexString.ascii_to_digit a, HexString.ascii_to_digit b with
      | Some h, Some l => (16 * h + l)%N :: hexDecode rest
      | _, _ => []
      end
  | _ => []
  end.

(** [hexValue.slice(2)]. *)
Definition slice2 (s : string) : string :=
  match s with
  | String _ (String _ rest) => rest
  | _ => EmptyString
  end.

(** [toBuffer] of [@/common/utils]: the bytes behind a [0x]-prefixed
    address. *)
Definition toBuffer (hexValue : string) : Buffer := hexDecode (slice2 hexValue).

(** [AddressZero] of [@ethersproject/constants]. *)
Definition AddressZero : string := "0x0000000000000000000000000000000000000000".

Definition Buffer_eqb (a b : Buffer) : bool :=
  if list_eq_dec N.eq_dec a b then true else false.

(** The rows of the three tables the helpers read, with the columns the
    queries mention. *)
Record NftTransferEvent : Type := {
  te_address : Buffer;
  te_token_id : Z;
  te_from : Buffer;
  te_to : Buffer;
  te_amount : Z;
  te_is_deleted : Z
}.

Record NftBalance : Type := {
  nb_contract : Buffer;
  nb_token_id : Z;
  nb_owner : Buffer;
  nb_amount : Z
}.

Record Collection : Type := {
  c_id : string;
  c_token_count : option Z
}.

(** The store: whether it answers at all, and its tables. *)
Record Database : Type := {
  online : bool;
  nft_transfer_events : list NftTransferEvent;
  nft_balances : list NftBalance;
  collections : list Collection
}.

(** The query texts of the helpers, with their parameters. *)
Inductive Query : Type :=
| MintedByUserOfToken (contract : Buffer) (tokenId : string) (from to : Buffer)
| MintedByUser (contract : Buffer) (from to : Buffer)
| BalancesOfToken (contract : Buffer) (tokenId : string)
| CollectionTokenCount (collection : string)
| CollectionTokenCountRaw (collection : string).

(** A result row: the one selected column, which SQL allows to be NULL. *)
Definition Row : Type := option Z.

(** SQL [sum]: NULL over no rows. *)
Definition sql_sum (l : list Z) : option Z :=
  match l with
  | [] => None
  | _ => Some (fold_right Z.add 0 l)
  end.

(** SQL [coalesce(v, d)]. *)
Definition coalesce (v : option Z) (d : Z) : option Z :=
  match v with
  | Some z => Some z
  | None => Some d
  end.

(** A text parameter compared with a numeric column is read as a number;
    the store rejects the query when it is not one.  Only integer
    literals are modelled. *)
Definition numeric_of_text (s : string) : option Z := parseDecimal s.

Definition isMintTransfer (contract from to : Buffer) (e : NftTransferEvent) : bool :=
  Buffer_eqb (te_address e) contract
  && (te_is_deleted e =? 0)
  && Buffer_eqb (te_from e) from
  && Buffer_eqb (te_to e) to.

Definition isMintTransferOfToken (contract : Buffer) (tokenId : Z)
    (from to : Buffer) (e : NftTransferEvent) : bool :=
  Buffer_eqb (te_address e) contract
  && (te_token_id e =? tokenId)
  && (te_is_deleted e =? 0)
  && Buffer_eqb (te_from e) from
  && Buffer_eqb (te_to e) to.

Definition isHeldBalance (contract : Buffer) (tokenId : Z) (b : NftBalance) : bool :=
  Buffer_eqb (nb_contract b) contract
  && (nb_token_id b =? tokenId)
  && (0 <? nb_amount b).

(** The rows each query text selects from the tables. *)
Definition rowsOf (db : Database) (q : Query) : Result (list Row) :=
  match q with
  | MintedByUserOfToken contract tokenId from to =>
      match numeric_of_text tokenId with
      | None => Err InvalidQueryParameter
      | Some t =>
          Ok [ coalesce
                 (sql_sum (map te_amount
                    (filter (isMintTransferOfToken contract t from to)
                       (nft_transfer_events db)))) 0 ]
      end
  | MintedByUser contract from to =>
      Ok [ coalesce
             (sql_sum (map te_amount
                (filter (isMintTransfer contract from to)
                   (nft_transfer_events db)))) 0 ]
  | BalancesOfToken contract tokenId =>
      match numeric_of_text tokenId with
      | None => Err InvalidQueryParameter
      | Some t =>
          Ok [ coalesce
                 (sql_sum (map nb_amount
                    (filter (isHeldBalance contract t) (nft_balances db)))) 0 ]
      end
  | CollectionTokenCount collection =>
      Ok (map (fun c => coalesce (c_token_count c) 0)
            (filter (fun c => (c_id c =? collection)%string) (collections db)))
  | CollectionTokenCountRaw collection =>
      Ok (map c_token_count
            (filter (fun c => (c_id c =? collection)%string) (collections db)))
  end.

Definition execute (db : Database) (q : Query) : Result (list Row) :=
  if online db then rowsOf db q else Err DataUnavailable.

(** ** Asynchronous computations

    A computation reads the store and reports, next to its outcome, the
    queries it sent, oldest first. *)
Definition IO (A : Type) : Type := Database -> Result A * list Query.

Definition ret {A : Type} (a : A) : IO A := fun _ => (Ok a, []).

Definition lift {A : Type} (r : Result A) : IO A := fun _ => (r, []).

Definition bind {A B : Type} (m : IO A) (k : A -> IO B) : IO B :=
  fun db =>
    match m db with
    | (Ok a, sent) => let (r, sent') := k a db in (r, sent ++ sent')
    | (Err e, sent) => (Err e, sent)
    end.

Declare Scope io_scope.
Delimit Scope io_scope with io.
Notation "x <-- m ;; k" := (bind m (fun x => k))
  (at level 61, m at next level, right associativity) : io_scope.

Definition outcome {A : Type} (r : Result A * list Query) : Result A := fst r.
Definition queries {A : Type} (r : Result A * list Query) : list Query := snd r.

Module idb.

Definition exactlyOne (rows : list Row) : Result Row :=
  match rows with
  | [r] => Ok r
  | [] => Err (QueryResultError noData)
  | _ => Err (QueryResultError multiple)
  end.

Definition atMostOne (rows : list Row) : Result (option Row) :=
  match rows with
  | [] => Ok None
  | [r] => Ok (Some r)
  | _ => Err (QueryResultError multiple)
  end.

(** [idb.one]: exactly one row, or a [QueryResultError]. *)
Definition one (q : Query) : IO Row :=
  fun db => (bindR (execute db q) exactlyOne, [q]).

(** [idb.oneOrNone]: one row, or [null] for none. *)
Definition oneOrNone (q : Query) : IO (option Row) :=
  fun db => (bindR (execute db q) atMostOne, [q]).

End idb.

(** The selected column as the driver hands it over: a numeric value as
    its decimal text, NULL as [null]. *)
Definition column (r : Row) : option BigNumberish :=
  option_map (fun z => JsString (toString z)) r.

(** [bn] on a value that may be [null]. *)
Definition bnOf (v : option BigNumberish) : Result Z :=
  match v with
  | Some x => bn x
  | None => Err InvalidBigNumber
  end.

(** ** Mint descriptors and verdicts *)

Inductive CollectionMintStatus : Type :=
| status_open
| status_closed.

Inductive CollectionMintStatusReason : Type :=
| not_yet_started
| ended
| max_supply_exceeded.

(** Modelled from the spec: the type [CollectionMint] of
    [@/orderbook/mints], with the fields the helpers read.  Timestamps are
    whole seconds, the supply limit and the token are decimal text. *)
Record CollectionMint : Type := {
  collection : string;
  contract : string;
  tokenId : option string;
  startTime : option Z;
  endTime : option Z;
  maxSupply : option string;
  status : option CollectionMintStatus
}.

(** What [getStatus] resolves to. *)
Record Verdict : Type := {
  verdict_status : CollectionMintStatus;
  reason : option CollectionMintStatusReason
}.

(** A field used as a condition: an absent field, the empty string and
    the number zero all count as false. *)
Definition truthyText (field : option string) : option string :=
  match field with
  | Some s => if (s =? EmptyString)%string then None else Some s
  | None => None
  end.

Definition truthyNumber (field : option Z) : option Z :=
  match field with
  | Some n => if n =? 0 then None else Some n
  | None => None
  end.

Definition isClosed (s : option CollectionMintStatus) : bool :=
  match s with
  | Some status_closed => true
  | _ => false
  end.

(** ** The counters *)

(** [getAmountMinted], helpers.ts lines 117-181.  The timing log written
    on one chain has no part in the result and is left out. *)
Definition getAmountMinted (collectionMint : CollectionMint) (user : string) : IO Z :=
  (amountMinted <--
     match truthyText (tokenId collectionMint) with
     | Some t =>
         r <-- idb.one (MintedByUserOfToken
                          (toBuffer (contract collectionMint)) t
                          (toBuffer AddressZero) (toBuffer user)) ;;
         ret (column r)
     | None =>
         r <-- idb.one (MintedByUser
                          (toBuffer (contract collectionMint))
                          (toBuffer AddressZero) (toBuffer user)) ;;
         ret (column r)
     end ;;
   lift (bnOf amountMinted))%io.

(** [r ? r.token_count : 0]. *)
Definition token_count_or_zero (r : option Row) : option BigNumberish :=
  match r with
  | Some row => column row
  | None => Some (JsNumber 0)
  end.

(** [getCurrentSupply], helpers.ts lines 183-219. *)
Definition getCurrentSupply (collectionMint : CollectionMint) : IO Z :=
  (tokenCount <--
     match truthyText (tokenId collectionMint) with
     | Some t =>
         r <-- idb.oneOrNone (BalancesOfToken
                                (toBuffer (contract collectionMint)) t) ;;
         ret (token_count_or_zero r)
     | None =>
         r <-- idb.oneOrNone (CollectionTokenCount (collection collectionMint)) ;;
         ret (token_count_or_zero r)
     end ;;
   lift (bnOf tokenCount))%io.

(** ** The status resolver *)

Definition startsLater (currentTime : Z) (collectionMint : CollectionMint) : bool :=
  match truthyNumber (startTime collectionMint) with
  | Some t => currentTime <=? t
  | None => false
  end.

Definition hasEnded (currentTime : Z) (collectionMint : CollectionMint) : bool :=
  match truthyNumber (endTime collectionMint) with
  | Some t => t <=? currentTime
  | None => false
  end.

(** [getStatus], helpers.ts lines 221-249; [currentTime] is the reading of
    [now()]. *)
Definition getStatus (currentTime : Z) (collectionMint : CollectionMint) : IO Verdict :=
  if isClosed (status collectionMint)
  then ret {| verdict_status := status_closed; reason := None |}
  else if startsLater currentTime collectionMint
  then ret {| verdict_status := status_closed; reason := Some not_yet_started |}
  else if hasEnded currentTime collectionMint
  then ret {| verdict_status := status_closed; reason := Some ended |}
  else
    match truthyText (maxSupply collectionMint) with
    | Some limit =>
        (currentSupply <-- getCurrentSupply collectionMint ;;
         cap <-- lift (bn (JsString limit)) ;;
         if cap <=? currentSupply
         then ret {| verdict_status := status_closed;
                     reason := Some max_supply_exceeded |}
         else ret {| verdict_status := status_open; reason := None |})%io
    | None => ret {| verdict_status := status_open; reason := None |}
    end.

(** ** The earlier revision of the helpers *)

Module Legacy.

(** [toSafeTimestamp], earlier revision lines 12-13. *)
Definition toSafeTimestamp (value : BigNumberish) : Result (option Z) :=
  (converted <- bn value ;;
   if 9999999999 <=? converted
   then Ok None
   else (again <- bn value ;; n <- toNumber again ;; Ok (Some n)))%result.

(** [getCurrentSupply], earlier revision lines 104-140: [idb.one], and
    no [coalesce] on the collection's figure. *)
Definition getCurrentSupply (collectionMint : CollectionMint) : IO Z :=
  (tokenCount <--
     match truthyText (tokenId collectionMint) with
     | Some t =>
         r <-- idb.one (BalancesOfToken
                          (toBuffer (contract collectionMint)) t) ;;
         ret (column r)
     | None =>
         r <-- idb.one (CollectionTokenCountRaw (collection collectionMint)) ;;
         ret (column r)
     end ;;
   lift (bnOf tokenCount))%io.

(** [getStatus], earlier revision lines 142-161. *)
Definition getStatus (currentTime : Z) (collectionMint : CollectionMint)
  : IO CollectionMintStatus :=
  if startsLater currentTime collectionMint then ret status_closed
  else if hasEnded currentTime collectionMint then ret status_closed
  else
    match truthyText (maxSupply collectionMint) with
    | Some limit =>
        (currentSupply <-- getCurrentSupply collectionMint ;;
         cap <-- lift (bn (JsString limit)) ;;
         if cap <=? currentSupply then ret status_closed else ret status_open)%io
    | None => ret status_open
    end.

End Legacy.

(** ** Vocabulary of the specification *)

(** The six values that stand for "no limit", as numbers. *)
Definition sentinelValues : list Z :=
  [ 0; 2 ^ 31 - 1; 2 ^ 32 - 1; 2 ^ 64 - 1; 2 ^ 128 - 1; 2 ^ 256 - 1 ].

(** The sum of [f] over exactly the elements of a table that satisfy [P]. *)
Inductive SumOver {A : Type} (P : A -> Prop) (f : A -> Z) : list A -> Z -> Prop :=
| SumOver_nil : SumOver P f [] 0
| SumOver_take (a : A) (l : list A) (s : Z) :
    P a -> SumOver P f l s -> SumOver P f (a :: l) (f a + s)
| SumOver_skip (a : A) (l : list A) (s : Z) :
    ~ P a -> SumOver P f l s -> SumOver P f (a :: l) s.

(** A transfer record that counts as a mint by [user]: on the mint's
    contract, from the zero address, to the user, not deleted, and of the
    mint's token when the mint names one. *)
Definition MintRecord (contract : string) (token : option Z) (user : string)
    (e : NftTransferEvent) : Prop :=
  te_address e = toBuffer contract
  /\ te_from e = toBuffer AddressZero
  /\ te_to e = toBuffer user
  /\ te_is_deleted e = 0
  /\ (forall k, token = Some k -> te_token_id e = k).

(** A balance record of the token with a positive amount. *)
Definition HeldBalance (contract : string) (token : Z) (b : NftBalance) : Prop :=
  nb_contract b = toBuffer contract
  /\ nb_token_id b = token
  /\ 0 < nb_amount b.

(** The closing conditions of a mint, in the order the resolver tries
    them. *)
Definition Overridden (d : CollectionMint) : Prop :=
  status d = Some status_closed.

Definition NotYetStarted (currentTime : Z) (d : CollectionMint) : Prop :=
  exists t, startTime d = Some t /\ t <> 0 /\ currentTime <= t.

Definition Ended (currentTime : Z) (d : CollectionMint) : Prop :=
  exists t, endTime d = Some t /\ t <> 0 /\ t <= currentTime.

Definition SupplyExhausted (db : Database) (d : CollectionMint) : Prop :=
  exists limit cap supply,
    maxSupply d = Some limit
    /\ bn (JsString limit) = Ok cap
    /\ outcome (getCurrentSupply d db) = Ok supply
    /\ cap <= supply.

Definition SupplyAvailable (db : Database) (d : CollectionMint) : Prop :=
  maxSupply d = None
  \/ exists limit cap supply,
       maxSupply d = Some limit
       /\ bn (JsString limit) = Ok cap
       /\ outcome (getCurrentSupply d db) = Ok supply
       /\ supply < cap.

Definition closedBecause (r : CollectionMintStatusReason) : Verdict :=
  {| verdict_status := status_closed; reason := Some r |}.

Definition closedUnexplained : Verdict :=
  {| verdict_status := status_closed; reason := None |}.

Definition isOpen : Verdict :=
  {| verdict_status := status_open; reason := None |}.

(** The one query [getCurrentSupply] sends for a mint. *)
Definition supplyQuery (d : CollectionMint) : Query :=
  match truthyText (tokenId d) with
  | Some t => BalancesOfToken (toBuffer (contract d)) t
  | None => CollectionTokenCount (collection d)
  end.

(** The one query [getAmountMinted] sends for a mint and a user. *)
Definition mintQuery (d : CollectionMint) (user : string) : Query :=
  match truthyText (tokenId d) with
  | Some t =>
      MintedByUserOfToken (toBuffer (contract d)) t
        (toBuffer AddressZero) (toBuffer user)
  | None =>
      MintedByUser (toBuffer (contract d)) (toBuffer AddressZero) (toBuffer user)
  end.

(** What a mint covers: the whole collection when it names no token, one
    token when its [tokenId] is the text of an integer. *)
Inductive Covers (d : CollectionMint) : option Z -> Prop :=
| WholeCollection : tokenId d = None -> Covers d None
| SingleToken (t : string) (k : Z) :
    tokenId d = Some t -> numeric_of_text t = Some k -> Covers d (Some k).

(** The collection records filed under an identifier. *)
Definition recordsOf (db : Database) (id : string) : list Collection :=
  filter (fun c => (c_id c =? id)%string) (collections db).

Definition total (l : list Z) : Z := fold_right Z.add 0 l.

(** Updates of single fields. *)
Definition withStartTime (t : option Z) (d : CollectionMint) : CollectionMint :=
  {| collection := collection d; contract := contract d; tokenId := tokenId d;
     startTime := t; endTime := endTime d; maxSupply := maxSupply d;
     status := status d |}.

Definition withEndTime (t : option Z) (d : CollectionMint) : CollectionMint :=
  {| collection := collection d; contract := contract d; tokenId := tokenId d;
     startTime := startTime d; endTime := t; maxSupply := maxSupply d;
     status := status d |}.

Definition withTokenId (t : option string) (d : CollectionMint) : CollectionMint :=
  {| collection := collection d; contract := contract d; tokenId := t;
     startTime := startTime d; endTime := endTime d; maxSupply := maxSupply d;
     status := status d |}.

Definition withTransfers (l : list NftTransferEvent) (db : Database) : Database :=
  {| online := online db; nft_transfer_events := l;
     nft_balances := nft_balances db; collections := collections db |}.

(** ** Sample data *)

Module Sample.

Definition artist : string := "0x00000000000000000000000000000000000000c1".
Definition alice : string := "0x00000000000000000000000000000000000000a1".
Definition bob : string := "0x00000000000000000000000000000000000000b2".

Definition transfer (token : Z) (sender receiver : string) (amount deleted : Z)
  : NftTransferEvent :=
  {| te_address := toBuffer artist; te_token_id := token;
     te_from := toBuffer sender; te_to := toBuffer receiver;
     te_amount := amount; te_is_deleted := deleted |}.

Definition balance (token : Z) (owner : string) (amount : Z) : NftBalance :=
  {| nb_contract := toBuffer artist; nb_token_id := token;
     nb_owner := toBuffer owner; nb_amount := amount |}.

(** Alice minted 2 and 3 units of token 7 and 4 units of token 8; one
    more mint of hers was reorganised away; Bob sold her one unit. *)
Definition db : Database :=
  {| online := true;
     nft_transfer_events :=
       [ transfer 7 AddressZero alice 2 0;
         transfer 7 AddressZero alice 3 0;
         transfer 8 AddressZero alice 4 0;
         transfer 7 AddressZero alice 10 1;
         transfer 7 bob alice 1 0 ];
     nft_balances :=
       [ balance 7 alice 6; balance 7 bob 0; balance 8 alice 4 ];
     collections :=
       [ {| c_id := artist; c_token_count := Some 100 |} ] |}.

(** A collection whose cached count is just below the largest 256-bit
    value. *)
Definition crowded : Database :=
  {| online := true; nft_transfer_events := []; nft_balances := [];
     collections :=
       [ {| c_id := artist; c_token_count := Some (2 ^ 256 - 2) |} ] |}.

(** A collection whose cached count is [supply]. *)
Definition counted (supply : Z) : Database :=
  {| online := true; nft_transfer_events := []; nft_balances := [];
     collections := [ {| c_id := artist; c_token_count := Some supply |} ] |}.

Definition uint256_max : string :=
  "115792089237316195423570985008687907853269984665640564039457584007913129639935".

Definition offline : Database :=
  {| online := false; nft_transfer_events := []; nft_balances := [];
     collections := [] |}.

Definition mint : CollectionMint :=
  {| collection := artist; contract := artist; tokenId := None;
     startTime := None; endTime := None; maxSupply := None; status := None |}.

Definition mintOf (token : string) : CollectionMint :=
  {| collection := artist; contract := artist; tokenId := Some token;
     startTime := None; endTime := None; maxSupply := None; status := None |}.

Definition capped (limit : string) : CollectionMint :=
  {| collection := artist; contract := artist; tokenId := None;
     startTime := None; endTime := None; maxSupply := Some limit;
     status := None |}.

Definition timed (opens closes : option Z) (limit : option string)
    (override : option CollectionMintStatus) : CollectionMint :=
  {| collection := artist; contract := artist; tokenId := None;
     startTime := opens; endTime := closes; maxSupply := limit;
     status := override |}.

Definition clock : Z := 1700000000.

End Sample.

(** ** Further helpers of the same files *)

(** [s.startsWith(searchString)]. *)
Fixpoint startsWith (s searchString : string) {struct searchString} : bool :=
  match searchString with
  | EmptyString => true
  | String a rest =>
      match s with
      | String b s' => Ascii.eqb a b && startsWith s' rest
      | EmptyString => false
      end
  end.

(** [s.slice(n)] for a count [n] of leading characters. *)
Fixpoint slice (n : nat) (s : string) : string :=
  match n, s with
  | O, _ => s
  | S n', String _ s' => slice n' s'
  | S _, EmptyString => EmptyString
  end.

(** What [axios.get] resolves to; only [data] is read. *)
Record Response (Data : Type) : Type := { data : Data }.

Arguments data {Data} r.

(** [fetchMetadata], helpers.ts lines 52-58.  [get] stands for
    [axios.get]; the result comes with the addresses requested. *)
Definition fetchMetadata {Data : Type} (get : string -> Result (Response Data))
    (url : string) : Result Data * list string :=
  let url :=
    if startsWith url "ipfs://"
    then ("https://ipfs.io/ipfs/" ++ slice 7 url)%string
    else url in
  (bindR (get url) (fun response => Ok (data response)), [url]).

(** The view functions the helpers call on a contract, each either
    returning or failing. *)
Record ContractViews : Type := {
  supportsInterface : string -> Result bool;
  view_maxSupply : Result Z;
  view_MAX_SUPPLY : Result Z
}.

(** What [baseProvider] gives access to: the views of the contract at an
    address. *)
Definition Chain : Type := string -> ContractViews.

Inductive ViewCall : Type :=
| CallSupportsInterface (interfaceId : string)
| CallMaxSupply
| CallMAX_SUPPLY.

Inductive ContractKind : Type :=
| erc721
| erc1155.

(** [getContractKind], helpers.ts lines 60-84: a probe that fails counts
    as a probe that says no.  The result comes with the calls made. *)
Definition getContractKind (chain : Chain) (contract : string)
  : option ContractKind * list ViewCall :=
  let c := chain contract in
  match supportsInterface c "0x80ac58cd" with
  | Ok true => (Some erc721, [CallSupportsInterface "0x80ac58cd"])
  | _ =>
      match supportsInterface c "0xd9b67a26" with
      | Ok true =>
          (Some erc1155,
           [CallSupportsInterface "0x80ac58cd";
            CallSupportsInterface "0xd9b67a26"])
      | _ =>
          (None,
           [CallSupportsInterface "0x80ac58cd";
            CallSupportsInterface "0xd9b67a26"])
      end
  end.

(** [.then((t) => t.toString()).catch(() => undefined)]. *)
Definition textOrUndefined (r : Result Z) : option string :=
  match r with
  | Ok t => Some (toString t)
  | Err _ => None
  end.

(** [getMaxSupply], helpers.ts lines 86-115: [maxSupply()] first, then
    [MAX_SUPPLY()] when the first gave nothing truthy.  The result comes
    with the calls made. *)
Definition getMaxSupply (chain : Chain) (contract : string)
  : option string * list ViewCall :=
  let c := chain contract in
  let maxSupply := textOrUndefined (view_maxSupply c) in
  match truthyText maxSupply with
  | Some _ => (maxSupply, [CallMaxSupply])
  | None => (textOrUndefined (view_MAX_SUPPLY c), [CallMaxSupply; CallMAX_SUPPLY])
  end.

(** [buffer.toString("hex")]: two lower-case digits per byte. *)
Definition hexDigits : string := "0123456789abcdef".

Definition hexDigit (n : N) : ascii :=
  match String.get (N.to_nat n) hexDigits with
  | Some c => c
  | None => "f"%char
  end.

Fixpoint hexEncode (b : Buffer) : string :=
  match b with
  | [] => EmptyString
  | byte :: rest =>
      String (hexDigit (byte / 16)) (String (hexDigit (byte mod 16)) (hexEncode rest))
  end.

(** [fromBuffer] of [@/common/utils]. *)
Definition fromBuffer (buffer : Buffer) : string := ("0x" ++ hexEncode buffer)%string.

(** A buffer holds bytes. *)
Definition isBytes (b : Buffer) : Prop := Forall (fun byte => (byte < 256)%N) b.

(** ** Order parameters (orders/looks-rare-v2/build/utils.ts) *)

Module LooksRareV2.

Inductive QuoteType : Type := Bid | Ask.

Inductive CollectionType : Type := ERC721 | ERC1155.

Inductive Side : Type := sell | buy.

(** [BaseOrderBuildOptions], utils.ts lines 8-14. *)
Record BaseOrderBuildOptions : Type := {
  maker : string;
  contract : option string;
  weiPrice : string;
  listingTime : option Z;
  expirationTime : option Z
}.

(** The fields of [BaseBuildParams] that [getBuildInfo] sets. *)
Record BaseBuildParams : Type := {
  quoteType : QuoteType;
  collection : string;
  collectionType : CollectionType;
  signer : string;
  price : string;
  itemId : string;
  amount : Z;
  currency : string;
  startTime : option Z;
  endTime : option Z
}.

Record OrderBuildInfo : Type := { params : BaseBuildParams }.

(** The two tables the query joins. *)
Record CollectionRow : Type := { collections_id : string; collections_contract : Buffer }.

Record ContractRow : Type := { contracts_address : Buffer; contracts_kind : option string }.

Record ReadStore : Type := {
  answers : bool;
  collections_table : list CollectionRow;
  contracts_table : list ContractRow
}.

Inductive BuildError : Type :=
| CouldNotFetchTokenCollection
| StoreFailure (e : Error).

Inductive BuildResult : Type :=
| Built (info : OrderBuildInfo)
| Failed (e : BuildError).

(** The rows of the join, for one collection identifier. *)
Definition joined (store : ReadStore) (id : string) : list ContractRow :=
  flat_map
    (fun c =>
       filter (fun k => Buffer_eqb (collections_contract c) (contracts_address k))
         (contracts_table store))
    (filter (fun c => (collections_id c =? id)%string) (collections_table store)).

(** [redb.oneOrNone] on the query of lines 25-37, which keeps one row at
    most ([LIMIT 1]). *)
Definition collectionResult (store : ReadStore) (id : string)
  : Result (option ContractRow) :=
  if answers store
  then match firstn 1 (joined store id) with
       | [] => Ok None
       | [r] => Ok (Some r)
       | _ => Err (QueryResultError multiple)
       end
  else Err DataUnavailable.

Definition isErc721 (kind : option string) : bool :=
  match kind with
  | Some k => (k =? "erc721")%string
  | None => false
  end.

(** [getBuildInfo], utils.ts lines 20-63.  [weth] stands for
    [Sdk.Common.Addresses.Weth[config.chainId]]. *)
Definition getBuildInfo (weth : string) (store : ReadStore)
    (options : BaseOrderBuildOptions) (id : string) (side : Side) : BuildResult :=
  match collectionResult store id with
  | Err e => Failed (StoreFailure e)
  | Ok None => Failed CouldNotFetchTokenCollection
  | Ok (Some row) =>
      Built
        {| params :=
             {| quoteType := match side with sell => Ask | buy => Bid end;
                collection := fromBuffer (contracts_address row);
                collectionType := if isErc721 (contracts_kind row) then ERC721 else ERC1155;
                signer := maker options;
                price := weiPrice options;
                itemId := "0";
                amount := 1;
                currency := weth;
                startTime := listingTime options;
                endTime := expirationTime options |} |}
  end.

End LooksRareV2.

(** ** More vocabulary *)

Definition withBalances (l : list NftBalance) (db : Database) : Database :=
  {| online := online db; nft_transfer_events := nft_transfer_events db;
     nft_balances := l; collections := collections db |}.

Definition withCollections (l : list Collection) (db : Database) : Database :=
  {| online := online db; nft_transfer_events := nft_transfer_events db;
     nft_balances := nft_balances db; collections := l |}.

Definition mapR {A B : Type} (f : A -> B) (r : Result A) : Result B :=
  match r with
  | Ok a => Ok (f a)
  | Err e => Err e
  end.

(** ** More sample data *)

Module SampleChain.

(** A contract that answers the ERC-721 probe with a failure, supports
    ERC-1155, has no [maxSupply] view and reports [0] from [MAX_SUPPLY]. *)
Definition views : ContractViews :=
  {| supportsInterface :=
       fun interfaceId =>
         if (interfaceId =? "0xd9b67a26")%string then Ok true
         else Err DataUnavailable;
     view_maxSupply := Err DataUnavailable;
     view_MAX_SUPPLY := Ok 0 |}.

(** A contract whose [maxSupply] is the largest 256-bit value. *)
Definition unlimited : ContractViews :=
  {| supportsInterface := fun _ => Ok true;
     view_maxSupply := Ok (2 ^ 256 - 1);
     view_MAX_SUPPLY := Ok 5 |}.

Definition chain : Chain :=
  fun address =>
    if (address =? Sample.artist)%string then views else unlimited.

Definition gateway (body : string) : string -> Result (Response string) :=
  fun url =>
    if startsWith url "https://" then Ok {| data := body |}
    else Err DataUnavailable.

Definition store : LooksRareV2.ReadStore :=
  {| LooksRareV2.answers := true;
     LooksRareV2.collections_table :=
       [ {| LooksRareV2.collections_id := "art";
            LooksRareV2.collections_contract := toBuffer Sample.artist |};
         {| LooksRareV2.collections_id := "orphan";
            LooksRareV2.collections_contract := toBuffer Sample.bob |} ];
     LooksRareV2.contracts_table :=
       [ {| LooksRareV2.contracts_address := toBuffer Sample.artist;
            LooksRareV2.contracts_kind := Some "erc1155" |} ] |}.

Definition options : LooksRareV2.BaseOrderBuildOptions :=
  {| LooksRareV2.maker := Sample.alice;
     LooksRareV2.contract := None;
     LooksRareV2.weiPrice := "1000";
     LooksRareV2.listingTime := Some 1700000000;
     LooksRareV2.expirationTime := None |}.

End SampleChain.

(** * Properties *)

(** ** Decimal text of big numbers *)

Section DecimalText.

Lemma to_int_not_nil (z : Z) : Z.to_int z <> Pos Nil /\ Z.to_int z <> Neg Nil.
Proof.
  destruct z as [|p|p]; simpl; split; try discriminate;
    intros [= H]; now apply (DecimalPos.Unsigned.to_uint_nonnil p).
Qed.

Lemma parseDecimal_toString (z : Z) : parseDecimal (toString z) = Some z.
Proof.
  unfold parseDecimal, toString.
  destruct (to_int_not_nil z) as [Hp Hn].
  rewrite (NilZero.isi _ Hp Hn). simpl. now rewrite DecimalZ.of_to.
Qed.

Lemma toString_inj (a b : Z) : toString a = toString b -> a = b.
Proof.
  intros H. pose proof (parseDecimal_toString a) as Ha.
  rewrite H, parseDecimal_toString in Ha. now injection Ha.
Qed.

Lemma fromString_toString (z : Z) : fromString (toString z) = Ok z.
Proof. unfold fromString. now rewrite parseDecimal_toString. Qed.

Lemma bnOf_column (z : Z) : bnOf (column (Some z)) = Ok z.
Proof. apply fromString_toString. Qed.

Lemma fromString_nonempty (s : string) (z : Z) :
  fromString s = Ok z -> s <> EmptyString.
Proof. intros H ->. discriminate H. Qed.

End DecimalText.

(** ** The sentinel literals *)

Lemma sentinels_are_sentinelValues : sentinels = map toString sentinelValues.
Proof. vm_compute. reflexivity. Qed.

Lemma includes_sentinels (z : Z) :
  includes sentinels (toString z) = true <-> In z sentinelValues.
Proof.
  rewrite sentinels_are_sentinelValues. unfold includes.
  rewrite existsb_exists. split.
  - intros [s [Hin Heq]]. apply String.eqb_eq in Heq.
    apply in_map_iff in Hin. destruct Hin as [k [Hk Hin]].
    rewrite <- Hk in Heq. apply toString_inj in Heq. now subst.
  - intros Hin. exists (toString z). split.
    + now apply in_map.
    + apply String.eqb_refl.
Qed.

Lemma includes_sentinels_false (z : Z) :
  includes sentinels (toString z) = false <-> ~ In z sentinelValues.
Proof.
  rewrite <- includes_sentinels. destruct (includes sentinels (toString z)).
  - split; [discriminate | intros H; now elim H].
  - split; [discriminate | reflexivity].
Qed.

Lemma includes_In_sentinels (s : string) :
  In s sentinels -> includes sentinels s = true.
Proof.
  intros H. unfold includes. apply existsb_exists.
  exists s. split; [exact H | apply String.eqb_refl].
Qed.

Lemma toNumber_safe (z : Z) : Z.abs z < 2 ^ 53 -> toNumber z = Ok z.
Proof.
  intros H. unfold toNumber.
  destruct (Z.ltb_spec (Z.abs z) (2 ^ 53)); [reflexivity | lia].
Qed.

(** ** Sanitizers *)

Lemma toSafeTimestamp_falsy (raw : option BigNumberish) :
  truthy raw = false -> toSafeTimestamp raw = Ok None.
Proof. intros H. unfold toSafeTimestamp. now rewrite H. Qed.

Lemma toSafeTimestamp_truthy (v : BigNumberish) :
  truthy (Some v) = true ->
  toSafeTimestamp (Some v) =
    match bn v with
    | Ok z =>
        if (z =? 0) || (9999999999 <=? z) then Ok None
        else match toNumber z with
             | Ok n => Ok (Some n)
             | Err e => Err e
             end
    | Err e => Err e
    end.
Proof.
  intros H. unfold toSafeTimestamp. rewrite H. simpl.
  destruct (bn v) as [z|e]; simpl; [|reflexivity].
  destruct ((z =? 0) || (9999999999 <=? z)); [reflexivity|].
  now destruct (toNumber z).
Qed.

Lemma toSafeNumber_truthy (v : BigNumberish) :
  truthy (Some v) = true ->
  toSafeNumber (Some v) =
    match bn v with
    | Ok z =>
        if includes sentinels (toString z) then Ok None
        else Ok (Some (toString z))
    | Err e => Err e
    end.
Proof.
  intros H. unfold toSafeNumber. rewrite H. simpl.
  now destruct (bn v).
Qed.

Lemma timestamp_guard (z : Z) :
  (z =? 0) || (9999999999 <=? z) = true <-> z = 0 \/ 9999999999 <= z.
Proof. rewrite orb_true_iff, Z.eqb_eq, Z.leb_le. reflexivity. Qed.

(** C5, as the code has it.  For every raw input: [toSafeTimestamp] is
    absent exactly when the input is falsy or denotes zero or a value of at
    least 9999999999, and an input denoting any other value above [-2^53]
    comes back as that integer; [toSafeNumber] is absent exactly when the
    input is falsy or denotes one of the six sentinel values, and an input
    denoting any other value comes back as the decimal text of that
    value. *)
Theorem sanitizers_round_trip :
  forall (raw : option BigNumberish),
    (toSafeTimestamp raw = Ok None <->
       truthy raw = false
       \/ exists v z, raw = Some v /\ bn v = Ok z /\ (z = 0 \/ 9999999999 <= z))
    /\ (forall v z,
          raw = Some v -> truthy raw = true -> bn v = Ok z ->
          z <> 0 -> z < 9999999999 -> - 2 ^ 53 < z ->
          toSafeTimestamp raw = Ok (Some z))
    /\ (toSafeNumber raw = Ok None <->
          truthy raw = false
          \/ exists v z, raw = Some v /\ bn v = Ok z /\ In z sentinelValues)
    /\ (forall v z,
          raw = Some v -> truthy raw = true -> bn v = Ok z ->
          ~ In z sentinelValues ->
          toSafeNumber raw = Ok (Some (toString z))).
Proof.
  intros raw. repeat split.
  - (* timestamp absent -> cause *)
    intros H. destruct (truthy raw) eqn:Ht; [right | now left].
    destruct raw as [v|]; [|discriminate Ht].
    rewrite (toSafeTimestamp_truthy v Ht) in H.
    destruct (bn v) as [z|e] eqn:Hbn; [|discriminate H].
    exists v, z. repeat split; trivial.
    apply timestamp_guard.
    destruct ((z =? 0) || (9999999999 <=? z)); [reflexivity|].
    destruct (toNumber z); discriminate H.
  - (* cause -> timestamp absent *)
    intros [Hf | [v [z [-> [Hbn Hz]]]]]; [now apply toSafeTimestamp_falsy|].
    destruct (truthy (Some v)) eqn:Ht; [|now apply toSafeTimestamp_falsy].
    rewrite (toSafeTimestamp_truthy v Ht), Hbn.
    apply timestamp_guard in Hz. now rewrite Hz.
  - (* timestamp unchanged *)
    intros v z -> Ht Hbn Hnz Hlt Hlow.
    rewrite (toSafeTimestamp_truthy v Ht), Hbn.
    destruct ((z =? 0) || (9999999999 <=? z)) eqn:Hg.
    + apply timestamp_guard in Hg. lia.
    + rewrite toNumber_safe; [reflexivity | lia].
  - (* number absent -> cause *)
    intros H. destruct (truthy raw) eqn:Ht; [right | now left].
    destruct raw as [v|]; [|discriminate Ht].
    rewrite (toSafeNumber_truthy v Ht) in H.
    destruct (bn v) as [z|e] eqn:Hbn; [|discriminate H].
    exists v, z. repeat split; trivial.
    apply includes_sentinels.
    destruct (includes sentinels (toString z)); [reflexivity | discriminate H].
  - (* cause -> number absent *)
    intros [Hf | [v [z [-> [Hbn Hz]]]]].
    + unfold toSafeNumber. now rewrite Hf.
    + destruct (truthy (Some v)) eqn:Ht.
      * rewrite (toSafeNumber_truthy v Ht), Hbn.
        apply includes_sentinels in Hz. now rewrite Hz.
      * unfold toSafeNumber. now rewrite Ht.
  - (* number unchanged *)
    intros v z -> Ht Hbn Hz.
    rewrite (toSafeNumber_truthy v Ht), Hbn.
    apply includes_sentinels_false in Hz. now rewrite Hz.
Qed.

(** C5, the claim as worded fails in two places.  A [BigNumber] holding
    [-2^53] is truthy, is neither zero nor at least 9999999999, and
    [toSafeTimestamp] raises on it instead of returning it.  The text [0x]
    is truthy and is none of the six sentinel values, and [toSafeNumber]
    (like [toSafeTimestamp]) raises on it instead of returning it, because
    [bn] takes it for no number. *)
Lemma sanitizers_raise_outside_their_domain :
  (truthy (Some (JsBigNumber (- 2 ^ 53))) = true
   /\ bn (JsBigNumber (- 2 ^ 53)) = Ok (- 2 ^ 53)
   /\ - 2 ^ 53 <> 0
   /\ - 2 ^ 53 < 9999999999
   /\ toSafeTimestamp (Some (JsBigNumber (- 2 ^ 53))) = Err NumericFault
   /\ toSafeTimestamp (Some (JsBigNumber (- 2 ^ 53))) <> Ok (Some (- 2 ^ 53)))
  /\ (truthy (Some (JsString "0x")) = true
      /\ ~ In "0x" sentinels
      /\ toSafeNumber (Some (JsString "0x")) = Err InvalidBigNumber
      /\ toSafeNumber (Some (JsString "0x")) <> Ok (Some "0x")
      /\ toSafeNumber (Some (JsString "0x")) <> Ok None
      /\ toSafeTimestamp (Some (JsString "0x")) = Err InvalidBigNumber).
Proof.
  split.
  - repeat split; try reflexivity; try lia.
    vm_compute. discriminate.
  - split; [reflexivity|]. split.
    + intros H. apply includes_In_sentinels in H. discriminate H.
    + repeat split; try reflexivity; vm_compute; discriminate.
Qed.

Lemma sanitizers_round_trip_witness :
  toSafeTimestamp (Some (JsBigNumber (- (2 ^ 53 - 1)))) = Ok (Some (- (2 ^ 53 - 1)))
  /\ toSafeNumber (Some (JsString "4294967294")) = Ok (Some "4294967294").
Proof.
  split.
  - apply (proj1 (proj2 (sanitizers_round_trip
                           (Some (JsBigNumber (- (2 ^ 53 - 1))))))
             (JsBigNumber (- (2 ^ 53 - 1))) (- (2 ^ 53 - 1)));
      try reflexivity; lia.
  - apply (proj2 (proj2 (proj2 (sanitizers_round_trip
                                  (Some (JsString "4294967294")))))
             (JsString "4294967294") 4294967294);
      try reflexivity.
    vm_compute. intuition discriminate.
Defined.

(** The sanitized text reads back as the same number, and sanitizing it a
    second time changes nothing. *)
Lemma toSafeNumber_idempotent (v : BigNumberish) (s : string) :
  toSafeNumber (Some v) = Ok (Some s) ->
  bn (JsString s) = bn v /\ toSafeNumber (Some (JsString s)) = Ok (Some s).
Proof.
  intros H. destruct (truthy (Some v)) eqn:Ht.
  - rewrite (toSafeNumber_truthy v Ht) in H.
    destruct (bn v) as [z|e] eqn:Hbn; [|discriminate H].
    destruct (includes sentinels (toString z)) eqn:Hs; [discriminate H|].
    injection H as <-. split.
    + simpl. apply fromString_toString.
    + rewrite toSafeNumber_truthy.
      * change (bn (JsString (toString z))) with (fromString (toString z)).
        now rewrite fromString_toString, Hs.
      * simpl. destruct (toString z =? EmptyString)%string eqn:He; [|reflexivity].
        apply String.eqb_eq in He.
        pose proof (fromString_toString z) as Hr. rewrite He in Hr.
        discriminate Hr.
  - unfold toSafeNumber in H. rewrite Ht in H. discriminate H.
Qed.

(** The earlier revision lets zero through. *)
Lemma legacy_toSafeTimestamp_keeps_zero :
  Legacy.toSafeTimestamp (JsNumber 0) = Ok (Some 0)
  /\ toSafeTimestamp (Some (JsNumber 0)) = Ok None.
Proof. split; reflexivity. Qed.

(** ** Guards of the resolver *)

Lemma isClosed_iff (d : CollectionMint) :
  isClosed (status d) = true <-> Overridden d.
Proof.
  unfold Overridden. destruct (status d) as [[|]|]; simpl; split;
    congruence.
Qed.

Lemma isClosed_false (d : CollectionMint) :
  ~ Overridden d -> isClosed (status d) = false.
Proof.
  intros H. destruct (isClosed (status d)) eqn:E; [|reflexivity].
  apply isClosed_iff in E. contradiction.
Qed.

Lemma truthyNumber_iff (field : option Z) (t : Z) :
  truthyNumber field = Some t <-> field = Some t /\ t <> 0.
Proof.
  unfold truthyNumber. destruct field as [n|].
  - destruct (Z.eqb_spec n 0); split.
    + discriminate.
    + intros [[= ->] H]. contradiction.
    + intros [= ->]. now split.
    + now intros [-> _].
  - split; [discriminate | now intros [? _]].
Qed.

Lemma startsLater_iff (currentTime : Z) (d : CollectionMint) :
  startsLater currentTime d = true <-> NotYetStarted currentTime d.
Proof.
  unfold startsLater, NotYetStarted.
  destruct (truthyNumber (startTime d)) as [t|] eqn:E.
  - apply truthyNumber_iff in E. destruct E as [E Hnz].
    rewrite Z.leb_le. split.
    + intros H. now exists t.
    + intros [t' [E' [_ H]]]. congruence.
  - split; [discriminate|].
    intros [t [E' [Hnz _]]].
    assert (truthyNumber (startTime d) = Some t) by now apply truthyNumber_iff.
    congruence.
Qed.

Lemma hasEnded_iff (currentTime : Z) (d : CollectionMint) :
  hasEnded currentTime d = true <-> Ended currentTime d.
Proof.
  unfold hasEnded, Ended.
  destruct (truthyNumber (endTime d)) as [t|] eqn:E.
  - apply truthyNumber_iff in E. destruct E as [E Hnz].
    rewrite Z.leb_le. split.
    + intros H. now exists t.
    + intros [t' [E' [_ H]]]. congruence.
  - split; [discriminate|].
    intros [t [E' [Hnz _]]].
    assert (truthyNumber (endTime d) = Some t) by now apply truthyNumber_iff.
    congruence.
Qed.

Lemma not_true_false (b : bool) (P : Prop) :
  (b = true <-> P) -> ~ P -> b = false.
Proof. intros H HP. destruct b; [elim HP; now apply H | reflexivity]. Qed.

Lemma truthyText_number (limit : string) (cap : Z) :
  bn (JsString limit) = Ok cap -> truthyText (Some limit) = Some limit.
Proof.
  intros H. simpl in H. apply fromString_nonempty in H. simpl.
  destruct (String.eqb_spec limit EmptyString); [contradiction | reflexivity].
Qed.

Lemma truthyText_present (field : option string) (s : string) :
  truthyText field = Some s -> field = Some s /\ s <> EmptyString.
Proof.
  unfold truthyText. destruct field as [x|]; [|discriminate].
  destruct (String.eqb_spec x EmptyString); [discriminate|].
  intros [= ->]. now split.
Qed.

(** ** The resolver, branch by branch *)

Lemma queries_getCurrentSupply (d : CollectionMint) (db : Database) :
  queries (getCurrentSupply d db) = [supplyQuery d].
Proof.
  unfold getCurrentSupply, supplyQuery, bind, ret, lift, queries,
    idb.oneOrNone.
  destruct (truthyText (tokenId d)) as [t|]; simpl.
  - destruct (bindR (execute db (BalancesOfToken (toBuffer (contract d)) t))
                idb.atMostOne); reflexivity.
  - destruct (bindR (execute db (CollectionTokenCount (collection d)))
                idb.atMostOne); reflexivity.
Qed.

Lemma getCurrentSupply_pair (d : CollectionMint) (db : Database) :
  getCurrentSupply d db = (outcome (getCurrentSupply d db), [supplyQuery d]).
Proof.
  rewrite <- (queries_getCurrentSupply d db). unfold outcome, queries.
  now destruct (getCurrentSupply d db).
Qed.

Lemma getStatus_overridden (now : Z) (d : CollectionMint) (db : Database) :
  Overridden d -> getStatus now d db = (Ok closedUnexplained, []).
Proof.
  intros H. apply isClosed_iff in H. unfold getStatus. now rewrite H.
Qed.

Lemma getStatus_not_yet_started (now : Z) (d : CollectionMint) (db : Database) :
  ~ Overridden d -> NotYetStarted now d ->
  getStatus now d db = (Ok (closedBecause not_yet_started), []).
Proof.
  intros HO HN. apply isClosed_false in HO. apply startsLater_iff in HN.
  unfold getStatus. now rewrite HO, HN.
Qed.

Lemma getStatus_ended (now : Z) (d : CollectionMint) (db : Database) :
  ~ Overridden d -> ~ NotYetStarted now d -> Ended now d ->
  getStatus now d db = (Ok (closedBecause ended), []).
Proof.
  intros HO HN HE. apply isClosed_false in HO.
  apply (not_true_false _ _ (startsLater_iff now d)) in HN.
  apply hasEnded_iff in HE.
  unfold getStatus. now rewrite HO, HN, HE.
Qed.

Lemma getStatus_unlimited (now : Z) (d : CollectionMint) (db : Database) :
  ~ Overridden d -> ~ NotYetStarted now d -> ~ Ended now d ->
  truthyText (maxSupply d) = None ->
  getStatus now d db = (Ok isOpen, []).
Proof.
  intros HO HN HE HM. apply isClosed_false in HO.
  apply (not_true_false _ _ (startsLater_iff now d)) in HN.
  apply (not_true_false _ _ (hasEnded_iff now d)) in HE.
  unfold getStatus. now rewrite HO, HN, HE, HM.
Qed.

Lemma getStatus_limited (now : Z) (d : CollectionMint) (db : Database)
    (limit : string) :
  ~ Overridden d -> ~ NotYetStarted now d -> ~ Ended now d ->
  truthyText (maxSupply d) = Some limit ->
  getStatus now d db =
    (match outcome (getCurrentSupply d db) with
     | Err e => Err e
     | Ok supply =>
         match bn (JsString limit) with
         | Err e => Err e
         | Ok cap =>
             if cap <=? supply
             then Ok (closedBecause max_supply_exceeded)
             else Ok isOpen
         end
     end,
     [supplyQuery d]).
Proof.
  intros HO HN HE HM. apply isClosed_false in HO.
  apply (not_true_false _ _ (startsLater_iff now d)) in HN.
  apply (not_true_false _ _ (hasEnded_iff now d)) in HE.
  unfold getStatus. rewrite HO, HN, HE, HM.
  unfold bind. rewrite (getCurrentSupply_pair d db).
  destruct (outcome (getCurrentSupply d db)) as [supply|e]; simpl;
    [|reflexivity].
  unfold lift.
  destruct (fromString limit) as [cap|e]; simpl; [|reflexivity].
  now destruct (cap <=? supply).
Qed.

(** Every way a resolution can end. *)
Lemma getStatus_cases (now : Z) (d : CollectionMint) (db : Database) :
  (Overridden d /\ getStatus now d db = (Ok closedUnexplained, []))
  \/ (~ Overridden d /\ NotYetStarted now d
      /\ getStatus now d db = (Ok (closedBecause not_yet_started), []))
  \/ (~ Overridden d /\ ~ NotYetStarted now d /\ Ended now d
      /\ getStatus now d db = (Ok (closedBecause ended), []))
  \/ (~ Overridden d /\ ~ NotYetStarted now d /\ ~ Ended now d
      /\ truthyText (maxSupply d) = None
      /\ getStatus now d db = (Ok isOpen, []))
  \/ (~ Overridden d /\ ~ NotYetStarted now d /\ ~ Ended now d
      /\ exists limit,
           truthyText (maxSupply d) = Some limit
           /\ queries (getStatus now d db) = [supplyQuery d]
           /\ (outcome (getStatus now d db) = Ok (closedBecause max_supply_exceeded)
               \/ outcome (getStatus now d db) = Ok isOpen
               \/ exists e, outcome (getStatus now d db) = Err e)).
Proof.
  destruct (isClosed (status d)) eqn:EO.
  { apply isClosed_iff in EO. left. split; trivial.
    now apply getStatus_overridden. }
  assert (HO : ~ Overridden d).
  { intros H. apply isClosed_iff in H. congruence. }
  right.
  destruct (startsLater now d) eqn:EN.
  { apply startsLater_iff in EN. left. repeat split; trivial.
    now apply getStatus_not_yet_started. }
  assert (HN : ~ NotYetStarted now d).
  { intros H. apply startsLater_iff in H. congruence. }
  right.
  destruct (hasEnded now d) eqn:EE.
  { apply hasEnded_iff in EE. left. repeat split; trivial.
    now apply getStatus_ended. }
  assert (HE : ~ Ended now d).
  { intros H. apply hasEnded_iff in H. congruence. }
  right.
  destruct (truthyText (maxSupply d)) as [limit|] eqn:EM.
  - right. repeat split; trivial. exists limit. split; trivial.
    rewrite (getStatus_limited now d db limit HO HN HE EM).
    unfold queries. simpl. split; trivial.
    destruct (outcome (getCurrentSupply d db)) as [supply|e]; simpl.
    + destruct (fromString limit) as [cap|e]; simpl.
      * destruct (cap <=? supply); simpl; auto.
      * right. right. now exists e.
    + right. right. now exists e.
  - left. repeat split; trivial. now apply getStatus_unlimited.
Qed.

(** ** Verdicts of [getStatus] *)

(** C1.  A mint whose [status] is the override ["closed"] resolves to
    closed with no reason and without a query, whatever its start time,
    end time and supply limit are; and whenever [getStatus] produces a
    verdict, the verdict carries a reason exactly when it is closed and the
    mint was not overridden. *)
Theorem override_closes_without_reason :
  forall (now : Z) (d : CollectionMint) (db : Database),
    (Overridden d -> getStatus now d db = (Ok closedUnexplained, []))
    /\ (forall v,
          outcome (getStatus now d db) = Ok v ->
          (reason v <> None <-> verdict_status v = status_closed /\ ~ Overridden d)).
Proof.
  intros now d db. split; [apply getStatus_overridden|].
  intros v Hv.
  destruct (getStatus_cases now d db)
    as [[HO H] | [[HO [HN H]] | [[HO [HN [HE H]]] | [[HO [HN [HE [HM H]]]]
       | [HO [HN [HE [limit [HM [HQ H]]]]]]]]]].
  - rewrite H in Hv. injection Hv as <-. simpl. split.
    + intros Hr. now elim Hr.
    + intros [_ Hn]. contradiction.
  - rewrite H in Hv. injection Hv as <-. simpl. split.
    + intros _. now split.
    + intros _. discriminate.
  - rewrite H in Hv. injection Hv as <-. simpl. split.
    + intros _. now split.
    + intros _. discriminate.
  - rewrite H in Hv. injection Hv as <-. simpl. split.
    + intros Hr. now elim Hr.
    + intros [Hc _]. discriminate Hc.
  - destruct H as [H | [H | [e H]]]; rewrite H in Hv.
    + injection Hv as <-. simpl. split.
      * intros _. now split.
      * intros _. discriminate.
    + injection Hv as <-. simpl. split.
      * intros Hr. now elim Hr.
      * intros [Hc _]. discriminate Hc.
    + discriminate Hv.
Qed.

Lemma override_closes_without_reason_witness :
  getStatus Sample.clock
    (Sample.timed (Some 1800000000) (Some 1600000000) (Some "1")
       (Some status_closed)) Sample.db
  = (Ok closedUnexplained, [])
  /\ (reason (closedBecause max_supply_exceeded) <> None <->
      verdict_status (closedBecause max_supply_exceeded) = status_closed
      /\ ~ Overridden (Sample.capped "100")).
Proof.
  split.
  - apply (proj1 (override_closes_without_reason Sample.clock
                    (Sample.timed (Some 1800000000) (Some 1600000000)
                       (Some "1") (Some status_closed)) Sample.db)).
    reflexivity.
  - apply (proj2 (override_closes_without_reason Sample.clock
                    (Sample.capped "100") Sample.db)).
    reflexivity.
Defined.

(** C2, the claim as worded fails for a timestamp of zero: a mint without
    override and without start time whose [endTime] is present and equal to
    [0] is resolved at a later clock reading as open, not as ended. *)
Lemma present_zero_endTime_is_not_ended :
  status (Sample.timed None (Some 0) None None) = None
  /\ startTime (Sample.timed None (Some 0) None None) = None
  /\ endTime (Sample.timed None (Some 0) None None) = Some 0
  /\ 0 <= Sample.clock
  /\ outcome (getStatus Sample.clock (Sample.timed None (Some 0) None None)
                Sample.db) = Ok isOpen
  /\ outcome (getStatus Sample.clock (Sample.timed None (Some 0) None None)
                Sample.db) <> Ok (closedBecause ended).
Proof.
  repeat split; try reflexivity.
  - unfold Sample.clock. lia.
  - vm_compute. discriminate.
Qed.

(** C2, as the code has it.  For a mint without the override: when
    [startTime] is present, not zero, and the clock reads at most
    [startTime], the verdict is closed, not yet started; otherwise, when
    [endTime] is present, not zero, and the clock reads at least [endTime],
    the verdict is closed, ended.  Neither sends a query. *)
Theorem timing_rules :
  forall (now : Z) (d : CollectionMint) (db : Database),
    ~ Overridden d ->
    (forall t,
       startTime d = Some t -> t <> 0 -> now <= t ->
       getStatus now d db = (Ok (closedBecause not_yet_started), []))
    /\ (~ (exists t, startTime d = Some t /\ t <> 0 /\ now <= t) ->
        forall t,
          endTime d = Some t -> t <> 0 -> t <= now ->
          getStatus now d db = (Ok (closedBecause ended), [])).
Proof.
  intros now d db HO. split.
  - intros t Ht Hnz Hle. apply getStatus_not_yet_started; trivial.
    now exists t.
  - intros HN t Ht Hnz Hle. apply getStatus_ended; trivial.
    now exists t.
Qed.

Lemma timing_rules_witness :
  getStatus Sample.clock
    (Sample.timed (Some (Sample.clock + 3600)) None None None) Sample.db
  = (Ok (closedBecause not_yet_started), [])
  /\ getStatus Sample.clock
       (Sample.timed (Some 1600000000) (Some Sample.clock) (Some "1") None)
       Sample.db
     = (Ok (closedBecause ended), []).
Proof.
  split.
  - apply (proj1 (timing_rules Sample.clock
                    (Sample.timed (Some (Sample.clock + 3600)) None None None)
                    Sample.db ltac:(discriminate))
             (Sample.clock + 3600));
      [reflexivity | unfold Sample.clock; lia | lia].
  - refine (proj2 (timing_rules Sample.clock
                     (Sample.timed (Some 1600000000) (Some Sample.clock)
                        (Some "1") None)
                     Sample.db _) _ Sample.clock _ _ _);
      [ discriminate | | reflexivity | unfold Sample.clock; lia | lia].
    intros [t [Ht [_ Hle]]]. injection Ht as <-.
    unfold Sample.clock in Hle. lia.
Defined.

Lemma supply_rule_aux (now : Z) (d : CollectionMint) (db : Database) :
  ~ Overridden d -> ~ NotYetStarted now d -> ~ Ended now d ->
  (maxSupply d = None -> outcome (getStatus now d db) = Ok isOpen)
  /\ (forall limit cap supply,
        maxSupply d = Some limit ->
        bn (JsString limit) = Ok cap ->
        outcome (getCurrentSupply d db) = Ok supply ->
        outcome (getStatus now d db) =
          if cap <=? supply
          then Ok (closedBecause max_supply_exceeded)
          else Ok isOpen).
Proof.
  intros HO HN HE. split.
  - intros HM. rewrite getStatus_unlimited; trivial. now rewrite HM.
  - intros limit cap supply HM Hcap Hsupply.
    assert (HT : truthyText (maxSupply d) = Some limit).
    { rewrite HM. now apply truthyText_number with cap. }
    rewrite (getStatus_limited now d db limit HO HN HE HT).
    unfold outcome in *. cbn [fst]. now rewrite Hsupply, Hcap.
Qed.

(** C3.  For a mint without the override on which neither timing rule
    fires: with no [maxSupply] the verdict is open; with a [maxSupply]
    denoting [cap] and a current supply of [supply], the verdict is closed,
    max supply exceeded, when [cap <= supply] (equality included) and open
    when [supply < cap].  [cap] and [supply] range over all integers and
    are compared exactly. *)
Theorem supply_rule :
  forall (now : Z) (d : CollectionMint) (db : Database),
    ~ Overridden d -> ~ NotYetStarted now d -> ~ Ended now d ->
    (maxSupply d = None -> outcome (getStatus now d db) = Ok isOpen)
    /\ (forall limit cap supply,
          maxSupply d = Some limit ->
          bn (JsString limit) = Ok cap ->
          outcome (getCurrentSupply d db) = Ok supply ->
          (cap <= supply ->
           outcome (getStatus now d db) = Ok (closedBecause max_supply_exceeded))
          /\ (cap = supply ->
              outcome (getStatus now d db) = Ok (closedBecause max_supply_exceeded))
          /\ (supply < cap -> outcome (getStatus now d db) = Ok isOpen)).
Proof.
  intros now d db HO HN HE.
  destruct (supply_rule_aux now d db HO HN HE) as [Hnone Hsome].
  split; [exact Hnone|].
  intros limit cap supply HM Hcap Hsupply.
  rewrite (Hsome limit cap supply HM Hcap Hsupply).
  repeat split; intros H;
    destruct (Z.leb_spec cap supply); (reflexivity || lia).
Qed.

Lemma supply_rule_witness :
  outcome (getStatus Sample.clock (Sample.capped "100") Sample.db)
  = Ok (closedBecause max_supply_exceeded)
  /\ outcome (getStatus Sample.clock (Sample.capped Sample.uint256_max)
                Sample.crowded)
     = Ok isOpen.
Proof.
  split.
  - refine (proj1 (proj2 (proj2 (supply_rule Sample.clock (Sample.capped "100")
                                   Sample.db _ _ _) "100" 100 100 _ _ _)) _);
      try reflexivity; try discriminate;
      intros [t [Ht _]]; discriminate Ht.
  - refine (proj2 (proj2 (proj2 (supply_rule Sample.clock
                                   (Sample.capped Sample.uint256_max)
                                   Sample.crowded _ _ _)
                            Sample.uint256_max (2 ^ 256 - 1) (2 ^ 256 - 2)
                            _ _ _)) _);
      try reflexivity; try discriminate;
      try (intros [t [Ht _]]; discriminate Ht).
Defined.

(** C4, as the code has it.  A timing condition holds when the time is
    present, not zero, and reached (the clock reads at most [startTime],
    at least [endTime]).  The rules are tried in the order override, not
    yet started, ended, supply, and the first that applies decides,
    whatever holds of the later ones: an overridden mint is closed without a reason; a mint
    not overridden and not yet started is closed for that reason even when
    it has also ended or is sold out; a mint past its end is closed as
    ended even when it is sold out; only then does the supply decide.  The
    first three send no query; the supply query is sent only when the mint
    is not overridden, both timing rules pass and [maxSupply] is present,
    and it is the only query ever sent. *)
Theorem guard_chain_order :
  forall (now : Z) (d : CollectionMint) (db : Database),
    (Overridden d -> getStatus now d db = (Ok closedUnexplained, []))
    /\ (~ Overridden d -> NotYetStarted now d ->
        getStatus now d db = (Ok (closedBecause not_yet_started), []))
    /\ (~ Overridden d -> ~ NotYetStarted now d -> Ended now d ->
        getStatus now d db = (Ok (closedBecause ended), []))
    /\ (~ Overridden d -> ~ NotYetStarted now d -> ~ Ended now d ->
        SupplyExhausted db d ->
        getStatus now d db =
          (Ok (closedBecause max_supply_exceeded), [supplyQuery d]))
    /\ (queries (getStatus now d db) <> [] ->
        ~ Overridden d /\ ~ NotYetStarted now d /\ ~ Ended now d
        /\ exists limit, maxSupply d = Some limit)
    /\ (forall q, In q (queries (getStatus now d db)) -> q = supplyQuery d).
Proof.
  intros now d db.
  split; [apply getStatus_overridden|].
  split; [apply getStatus_not_yet_started|].
  split; [apply getStatus_ended|].
  split; [|split].
  - intros HO HN HE [limit [cap [supply [HM [Hcap [Hsupply Hle]]]]]].
    assert (HT : truthyText (maxSupply d) = Some limit).
    { rewrite HM. now apply truthyText_number with cap. }
    rewrite (getStatus_limited now d db limit HO HN HE HT).
    rewrite Hsupply, Hcap.
    destruct (Z.leb_spec cap supply); [reflexivity | lia].
  - intros Hq.
    destruct (getStatus_cases now d db)
      as [[HO H] | [[HO [HN H]] | [[HO [HN [HE H]]] | [[HO [HN [HE [HM H]]]]
         | [HO [HN [HE [limit [HM [HQ H]]]]]]]]]];
      try (rewrite H in Hq; now elim Hq).
    repeat split; trivial.
    apply truthyText_present in HM. exists limit. apply HM.
  - intros q Hq.
    destruct (getStatus_cases now d db)
      as [[HO H] | [[HO [HN H]] | [[HO [HN [HE H]]] | [[HO [HN [HE [HM H]]]]
         | [HO [HN [HE [limit [HM [HQ H]]]]]]]]]];
      try (rewrite H in Hq; simpl in Hq; contradiction).
    rewrite HQ in Hq. destruct Hq as [<- | []]. reflexivity.
Qed.

(** C4, the claim as worded fails for an end time of zero: on a mint
    without override and start time whose [endTime] is present and equal
    to [0] and whose supply has reached [maxSupply], both the ended
    condition as worded (the clock reads at least [endTime]) and the
    supply condition hold, yet the verdict carries the later reason, max
    supply exceeded, and the supply query is sent. *)
Lemma zero_endTime_yields_to_supply :
  status (Sample.timed None (Some 0) (Some "100") None) = None
  /\ startTime (Sample.timed None (Some 0) (Some "100") None) = None
  /\ endTime (Sample.timed None (Some 0) (Some "100") None) = Some 0
  /\ 0 <= Sample.clock
  /\ SupplyExhausted Sample.db (Sample.timed None (Some 0) (Some "100") None)
  /\ getStatus Sample.clock (Sample.timed None (Some 0) (Some "100") None)
       Sample.db
     = (Ok (closedBecause max_supply_exceeded),
        [CollectionTokenCount Sample.artist])
  /\ outcome (getStatus Sample.clock
                (Sample.timed None (Some 0) (Some "100") None) Sample.db)
     <> Ok (closedBecause ended)
  /\ queries (getStatus Sample.clock
                (Sample.timed None (Some 0) (Some "100") None) Sample.db)
     <> [].
Proof.
  split; [reflexivity|]. split; [reflexivity|]. split; [reflexivity|].
  split; [unfold Sample.clock; lia|].
  split.
  - exists "100", 100, 100.
    split; [reflexivity | split; [reflexivity | split; [reflexivity | lia]]].
  - split; [reflexivity|]. split; vm_compute; discriminate.
Qed.

Lemma guard_chain_order_witness :
  getStatus Sample.clock
    (Sample.timed (Some 1800000000) (Some 1600000000) (Some "1") None)
    Sample.db
  = (Ok (closedBecause not_yet_started), [])
  /\ getStatus Sample.clock
       (Sample.timed None (Some 1600000000) (Some "1") None) Sample.db
     = (Ok (closedBecause ended), [])
  /\ getStatus Sample.clock (Sample.capped "100") Sample.db
     = (Ok (closedBecause max_supply_exceeded),
        [CollectionTokenCount Sample.artist]).
Proof.
  split; [|split].
  - refine (proj1 (proj2 (guard_chain_order Sample.clock
                            (Sample.timed (Some 1800000000) (Some 1600000000)
                               (Some "1") None) Sample.db)) _ _).
    + discriminate.
    + exists 1800000000. split; [reflexivity | split; [discriminate | unfold Sample.clock; lia]].
  - refine (proj1 (proj2 (proj2 (guard_chain_order Sample.clock
                            (Sample.timed None (Some 1600000000)
                               (Some "1") None) Sample.db))) _ _ _).
    + discriminate.
    + intros [t [Ht _]]. discriminate Ht.
    + exists 1600000000. split; [reflexivity | split; [discriminate | unfold Sample.clock; lia]].
  - refine (proj1 (proj2 (proj2 (proj2 (guard_chain_order Sample.clock
                            (Sample.capped "100") Sample.db)))) _ _ _ _).
    + discriminate.
    + intros [t [Ht _]]. discriminate Ht.
    + intros [t [Ht _]]. discriminate Ht.
    + exists "100", 100, 100.
      split; [reflexivity | split; [reflexivity | split; [reflexivity | lia]]].
Defined.

(** C8.  For a mint that reaches the supply check (no override, both
    timing rules pass, [maxSupply] present and not empty): when
    [getCurrentSupply] fails, [getStatus] fails with the same error and
    yields no verdict. *)
Theorem supply_failure_propagates :
  forall (now : Z) (d : CollectionMint) (db : Database)
         (limit : string) (e : Error),
    ~ Overridden d -> ~ NotYetStarted now d -> ~ Ended now d ->
    maxSupply d = Some limit -> limit <> EmptyString ->
    outcome (getCurrentSupply d db) = Err e ->
    outcome (getStatus now d db) = Err e
    /\ forall v, outcome (getStatus now d db) <> Ok v.
Proof.
  intros now d db limit e HO HN HE HM Hne Hfail.
  assert (HT : truthyText (maxSupply d) = Some limit).
  { rewrite HM. simpl. destruct (String.eqb_spec limit EmptyString);
      [contradiction | reflexivity]. }
  assert (Hg : outcome (getStatus now d db) = Err e).
  { rewrite (getStatus_limited now d db limit HO HN HE HT).
    unfold outcome in *. cbn [fst]. now rewrite Hfail. }
  split; [exact Hg|]. intros v Hv. rewrite Hg in Hv. discriminate Hv.
Qed.

Lemma supply_failure_propagates_witness :
  outcome (getStatus Sample.clock (Sample.capped "100") Sample.offline)
  = Err DataUnavailable.
Proof.
  refine (proj1 (supply_failure_propagates Sample.clock (Sample.capped "100")
                   Sample.offline "100" DataUnavailable _ _ _ _ _ _));
    try reflexivity; try discriminate;
    intros [t [Ht _]]; discriminate Ht.
Defined.

Lemma getStatus_zero_endTime (now : Z) (d : CollectionMint) (db : Database) :
  endTime d = Some 0 ->
  getStatus now d db = getStatus now (withEndTime None d) db.
Proof.
  intros H. unfold getStatus, hasEnded, startsLater, getCurrentSupply.
  rewrite H. reflexivity.
Qed.

Lemma getStatus_zero_startTime (now : Z) (d : CollectionMint) (db : Database) :
  startTime d = Some 0 ->
  getStatus now d db = getStatus now (withStartTime None d) db.
Proof.
  intros H. unfold getStatus, hasEnded, startsLater, getCurrentSupply.
  rewrite H. reflexivity.
Qed.

(** C9.  A [startTime] or [endTime] of zero is treated exactly as an
    absent one: the resolution is the same as with the field removed.  So
    with [endTime = 0] no verdict ever carries the reason ended, with
    [startTime = 0] none carries not yet started, and a mint with
    [endTime = 0] and no other closing condition is open, at every clock
    reading, although every reading from zero on is at least [endTime]. *)
Theorem zero_timestamp_counts_as_absent :
  forall (now : Z) (d : CollectionMint) (db : Database),
    (endTime d = Some 0 ->
     getStatus now d db = getStatus now (withEndTime None d) db)
    /\ (startTime d = Some 0 ->
        getStatus now d db = getStatus now (withStartTime None d) db)
    /\ (endTime d = Some 0 ->
        forall v, outcome (getStatus now d db) = Ok v -> reason v <> Some ended)
    /\ (startTime d = Some 0 ->
        forall v, outcome (getStatus now d db) = Ok v ->
                  reason v <> Some not_yet_started)
    /\ (endTime d = Some 0 ->
        ~ Overridden d -> ~ NotYetStarted now d -> SupplyAvailable db d ->
        outcome (getStatus now d db) = Ok isOpen).
Proof.
  intros now d db.
  split; [apply getStatus_zero_endTime|].
  split; [apply getStatus_zero_startTime|].
  split; [|split].
  - intros H0 v Hv.
    assert (HE : ~ Ended now d).
    { intros [t [Ht [Hnz _]]]. congruence. }
    destruct (getStatus_cases now d db)
      as [[HO H] | [[HO [HN H]] | [[HO [HN [HE' H]]] | [[HO [HN [_ [HM H]]]]
         | [HO [HN [_ [limit [HM [HQ H]]]]]]]]]];
      try contradiction;
      try (rewrite H in Hv; injection Hv as <-; discriminate).
    destruct H as [H | [H | [e H]]]; rewrite H in Hv;
      try discriminate Hv; injection Hv as <-; discriminate.
  - intros H0 v Hv.
    assert (HN : ~ NotYetStarted now d).
    { intros [t [Ht [Hnz _]]]. congruence. }
    destruct (getStatus_cases now d db)
      as [[HO H] | [[HO [HN' H]] | [[HO [_ [HE H]]] | [[HO [_ [HE [HM H]]]]
         | [HO [_ [HE [limit [HM [HQ H]]]]]]]]]];
      try contradiction;
      try (rewrite H in Hv; injection Hv as <-; discriminate).
    destruct H as [H | [H | [e H]]]; rewrite H in Hv;
      try discriminate Hv; injection Hv as <-; discriminate.
  - intros H0 HO HN HS.
    assert (HE : ~ Ended now d).
    { intros [t [Ht [Hnz _]]]. congruence. }
    destruct HS as [HM | [limit [cap [supply [HM [Hcap [Hsupply Hlt]]]]]]].
    + now apply (proj1 (supply_rule_aux now d db HO HN HE)).
    + rewrite (proj2 (supply_rule_aux now d db HO HN HE) limit cap supply);
        trivial.
      destruct (Z.leb_spec cap supply); [lia | reflexivity].
Qed.

Lemma zero_timestamp_counts_as_absent_witness :
  getStatus Sample.clock (Sample.timed None (Some 0) None None) Sample.db
  = getStatus Sample.clock (Sample.timed None None None None) Sample.db
  /\ outcome (getStatus Sample.clock (Sample.timed None (Some 0) None None)
                Sample.db) = Ok isOpen.
Proof.
  split.
  - apply (proj1 (zero_timestamp_counts_as_absent Sample.clock
                    (Sample.timed None (Some 0) None None) Sample.db)).
    reflexivity.
  - refine (proj2 (proj2 (proj2 (proj2 (zero_timestamp_counts_as_absent
              Sample.clock (Sample.timed None (Some 0) None None)
              Sample.db)))) _ _ _ _).
    + reflexivity.
    + discriminate.
    + intros [t [Ht _]]. discriminate Ht.
    + left. reflexivity.
Defined.

(** ** Selections and sums over tables *)

Lemma Buffer_eqb_eq (a b : Buffer) : Buffer_eqb a b = true <-> a = b.
Proof.
  unfold Buffer_eqb. destruct (list_eq_dec N.eq_dec a b); split;
    congruence.
Qed.

Lemma SumOver_filter {A : Type} (P : A -> Prop) (sel : A -> bool) (f : A -> Z)
    (l : list A) :
  (forall a, sel a = true <-> P a) ->
  SumOver P f l (total (map f (filter sel l))).
Proof.
  intros Hsel. induction l as [|a l IH]; simpl.
  - constructor.
  - destruct (sel a) eqn:Ha.
    + simpl. apply SumOver_take; [now apply Hsel | exact IH].
    + apply SumOver_skip; [|exact IH].
      intros HP. apply Hsel in HP. congruence.
Qed.

Lemma SumOver_functional {A : Type} (P : A -> Prop) (f : A -> Z) (l : list A)
    (s s' : Z) :
  SumOver P f l s -> SumOver P f l s' -> s = s'.
Proof.
  intros H. revert s'. induction H as [|a l s Ha H IH|a l s Ha H IH];
    intros s' H'; inversion H'; subst; try contradiction.
  - reflexivity.
  - f_equal. now apply IH.
  - now apply IH.
Qed.

Lemma SumOver_none {A : Type} (P : A -> Prop) (f : A -> Z) (l : list A) :
  (forall a, In a l -> ~ P a) -> SumOver P f l 0.
Proof.
  induction l as [|a l IH]; intros H.
  - constructor.
  - apply SumOver_skip.
    + apply H. now left.
    + apply IH. intros b Hb. apply H. now right.
Qed.

Lemma coalesce_sum (l : list Z) : coalesce (sql_sum l) 0 = Some (total l).
Proof. destruct l; reflexivity. Qed.

Lemma filter_without {A : Type} (sel : A -> bool) (before after : list A)
    (a : A) :
  sel a = false ->
  filter sel (before ++ a :: after) = filter sel (before ++ after).
Proof.
  intros H. rewrite !filter_app. simpl. now rewrite H.
Qed.

Lemma isMintTransfer_iff (contract user : string) (e : NftTransferEvent) :
  isMintTransfer (toBuffer contract) (toBuffer AddressZero) (toBuffer user) e
  = true <-> MintRecord contract None user e.
Proof.
  unfold isMintTransfer, MintRecord.
  rewrite !andb_true_iff, !Buffer_eqb_eq, Z.eqb_eq.
  split.
  - intros [[[Ha Hd] Hf] Ht]. repeat split; trivial. discriminate.
  - intros [Ha [Hf [Ht [Hd _]]]]. repeat split; trivial.
Qed.

Lemma isMintTransferOfToken_iff (contract user : string) (k : Z)
    (e : NftTransferEvent) :
  isMintTransferOfToken (toBuffer contract) k (toBuffer AddressZero)
    (toBuffer user) e = true <-> MintRecord contract (Some k) user e.
Proof.
  unfold isMintTransferOfToken, MintRecord.
  rewrite !andb_true_iff, !Buffer_eqb_eq, !Z.eqb_eq.
  split.
  - intros [[[[Ha Hk] Hd] Hf] Ht]. repeat split; trivial.
    intros k' [= <-]. exact Hk.
  - intros [Ha [Hf [Ht [Hd Hk]]]]. repeat split; trivial. now apply Hk.
Qed.

Lemma isHeldBalance_iff (contract : string) (k : Z) (b : NftBalance) :
  isHeldBalance (toBuffer contract) k b = true <-> HeldBalance contract k b.
Proof.
  unfold isHeldBalance, HeldBalance.
  rewrite !andb_true_iff, Buffer_eqb_eq, Z.eqb_eq, Z.ltb_lt.
  split.
  - intros [[Ha Hk] Hp]. now repeat split.
  - intros [Ha [Hk Hp]]. now repeat split.
Qed.

Lemma numeric_text_truthy (t : string) (k : Z) :
  numeric_of_text t = Some k -> truthyText (Some t) = Some t.
Proof.
  intros H. simpl. destruct (String.eqb_spec t EmptyString); [|reflexivity].
  subst. discriminate H.
Qed.

(** ** The counters, as one query each *)

Lemma getAmountMinted_run (d : CollectionMint) (user : string) (db : Database) :
  getAmountMinted d user db =
    (bindR (bindR (execute db (mintQuery d user)) idb.exactlyOne)
       (fun r => bnOf (column r)),
     [mintQuery d user]).
Proof.
  unfold getAmountMinted, mintQuery, bind, ret, lift, idb.one.
  destruct (truthyText (tokenId d)) as [t|].
  - destruct (bindR (execute db _) idb.exactlyOne); reflexivity.
  - destruct (bindR (execute db _) idb.exactlyOne); reflexivity.
Qed.

Lemma getCurrentSupply_run (d : CollectionMint) (db : Database) :
  getCurrentSupply d db =
    (bindR (bindR (execute db (supplyQuery d)) idb.atMostOne)
       (fun r => bnOf (token_count_or_zero r)),
     [supplyQuery d]).
Proof.
  unfold getCurrentSupply, supplyQuery, bind, ret, lift, idb.oneOrNone.
  destruct (truthyText (tokenId d)) as [t|].
  - destruct (bindR (execute db _) idb.atMostOne); reflexivity.
  - destruct (bindR (execute db _) idb.atMostOne); reflexivity.
Qed.

Lemma getAmountMinted_value (d : CollectionMint) (user : string)
    (db : Database) (token : option Z) :
  online db = true -> Covers d token ->
  exists sel,
    (forall e, sel e = true <-> MintRecord (contract d) token user e)
    /\ outcome (getAmountMinted d user db) =
         Ok (total (map te_amount (filter sel (nft_transfer_events db)))).
Proof.
  intros Hon Hc. rewrite getAmountMinted_run. unfold outcome, mintQuery.
  cbn [fst]. destruct Hc as [Hnone | t k Hsome Hk].
  - rewrite Hnone. simpl truthyText. cbv iota.
    exists (isMintTransfer (toBuffer (contract d)) (toBuffer AddressZero)
              (toBuffer user)).
    split; [intros e; apply isMintTransfer_iff|].
    unfold execute. rewrite Hon. simpl rowsOf. rewrite coalesce_sum.
    simpl bindR. apply bnOf_column.
  - rewrite Hsome, (numeric_text_truthy t k Hk).
    exists (isMintTransferOfToken (toBuffer (contract d)) k
              (toBuffer AddressZero) (toBuffer user)).
    split; [intros e; apply isMintTransferOfToken_iff|].
    unfold execute. rewrite Hon. simpl rowsOf. rewrite Hk, coalesce_sum.
    simpl bindR. apply bnOf_column.
Qed.

Lemma unselected_transfer (c u : Buffer) (k : Z) (e : NftTransferEvent) :
  te_is_deleted e <> 0 \/ te_from e <> toBuffer AddressZero ->
  isMintTransfer c (toBuffer AddressZero) u e = false
  /\ isMintTransferOfToken c k (toBuffer AddressZero) u e = false.
Proof.
  intros H. unfold isMintTransfer, isMintTransferOfToken.
  destruct H as [H | H].
  - apply Z.eqb_neq in H. rewrite H.
    split; rewrite ?andb_false_r; simpl; rewrite ?andb_false_r; reflexivity.
  - assert (Hf : Buffer_eqb (te_from e) (toBuffer AddressZero) = false).
    { destruct (Buffer_eqb (te_from e) (toBuffer AddressZero)) eqn:E;
        [|reflexivity]. apply Buffer_eqb_eq in E. contradiction. }
    rewrite Hf.
    split; rewrite ?andb_false_r; simpl; rewrite ?andb_false_r; reflexivity.
Qed.

Lemma execute_without_transfer (db : Database) (d : CollectionMint)
    (user : string) (before after : list NftTransferEvent)
    (e : NftTransferEvent) :
  nft_transfer_events db = before ++ e :: after ->
  te_is_deleted e <> 0 \/ te_from e <> toBuffer AddressZero ->
  execute db (mintQuery d user)
  = execute (withTransfers (before ++ after) db) (mintQuery d user).
Proof.
  intros Hev He. unfold execute, withTransfers. cbn [online].
  destruct (online db); [|reflexivity].
  unfold mintQuery. destruct (truthyText (tokenId d)) as [t|]; simpl rowsOf.
  - destruct (numeric_of_text t) as [k|]; [|reflexivity].
    rewrite Hev.
    rewrite filter_without;
      [reflexivity | apply (unselected_transfer _ _ k e He)].
  - rewrite Hev.
    rewrite filter_without;
      [reflexivity | apply (unselected_transfer _ _ 0 e He)].
Qed.

(** C6.  With the store answering, for a mint covering [token] (one token,
    or the whole collection when it names none) and a user,
    [getAmountMinted] returns the sum of [amount] over exactly the transfer
    records on the mint's contract, from the zero address, to the user, not
    deleted, and of that token when there is one.  A record that is deleted
    or whose sender is not the zero address contributes nothing: the result
    is what it is without that record. *)
Theorem getAmountMinted_sums_mints :
  forall (d : CollectionMint) (user : string) (db : Database),
    (forall token,
       online db = true -> Covers d token ->
       exists s,
         outcome (getAmountMinted d user db) = Ok s
         /\ SumOver (MintRecord (contract d) token user) te_amount
              (nft_transfer_events db) s)
    /\ (forall before e after,
          nft_transfer_events db = before ++ e :: after ->
          te_is_deleted e <> 0 \/ te_from e <> toBuffer AddressZero ->
          getAmountMinted d user db
          = getAmountMinted d user (withTransfers (before ++ after) db)).
Proof.
  intros d user db. split.
  - intros token Hon Hc.
    destruct (getAmountMinted_value d user db token Hon Hc) as [sel [Hsel Hv]].
    eexists. split; [exact Hv|]. now apply SumOver_filter.
  - intros before e after Hev He.
    rewrite !getAmountMinted_run.
    now rewrite (execute_without_transfer db d user before after e Hev He).
Qed.

Lemma getAmountMinted_sums_mints_witness :
  SumOver (MintRecord Sample.artist (Some 7) Sample.alice) te_amount
    (nft_transfer_events Sample.db) 5
  /\ getAmountMinted (Sample.mintOf "7") Sample.alice Sample.db
     = getAmountMinted (Sample.mintOf "7") Sample.alice
         (withTransfers
            [ Sample.transfer 7 AddressZero Sample.alice 2 0;
              Sample.transfer 7 AddressZero Sample.alice 3 0;
              Sample.transfer 8 AddressZero Sample.alice 4 0;
              Sample.transfer 7 Sample.bob Sample.alice 1 0 ] Sample.db).
Proof.
  split.
  - destruct (proj1 (getAmountMinted_sums_mints (Sample.mintOf "7")
                       Sample.alice Sample.db)
                (Some 7) eq_refl
                (SingleToken (Sample.mintOf "7") "7" 7 eq_refl eq_refl))
      as [s [Hs HS]].
    vm_compute in Hs. injection Hs as <-. exact HS.
  - apply (proj2 (getAmountMinted_sums_mints (Sample.mintOf "7")
                    Sample.alice Sample.db)
             [ Sample.transfer 7 AddressZero Sample.alice 2 0;
               Sample.transfer 7 AddressZero Sample.alice 3 0;
               Sample.transfer 8 AddressZero Sample.alice 4 0 ]
             (Sample.transfer 7 AddressZero Sample.alice 10 1)
             [ Sample.transfer 7 Sample.bob Sample.alice 1 0 ]).
    + reflexivity.
    + left. simpl. lia.
Defined.

Lemma mint_rows (d : CollectionMint) (user : string) (db : Database)
    (rows : list Row) :
  execute db (mintQuery d user) = Ok rows -> exists z, rows = [Some z].
Proof.
  unfold execute. destruct (online db); [|discriminate].
  unfold mintQuery. destruct (truthyText (tokenId d)) as [t|]; simpl rowsOf.
  - destruct (numeric_of_text t) as [k|]; [|discriminate].
    rewrite coalesce_sum. intros [= <-]. eexists. reflexivity.
  - rewrite coalesce_sum. intros [= <-]. eexists. reflexivity.
Qed.

(** C10.  The aggregate query of [getAmountMinted] answers with exactly
    one row whenever it answers, so the one-row fetch never raises for lack
    (or excess) of rows; and with the store answering, a mint and a user
    with no matching mint record at all get [0]. *)
Theorem getAmountMinted_without_records :
  forall (d : CollectionMint) (user : string) (db : Database),
    (forall rows,
       execute db (mintQuery d user) = Ok rows -> List.length rows = 1%nat)
    /\ (forall c,
          outcome (getAmountMinted d user db) <> Err (QueryResultError c))
    /\ (forall token,
          online db = true -> Covers d token ->
          (forall e, In e (nft_transfer_events db) ->
                     ~ MintRecord (contract d) token user e) ->
          outcome (getAmountMinted d user db) = Ok 0).
Proof.
  intros d user db. split; [|split].
  - intros rows H. apply mint_rows in H. destruct H as [z ->]. reflexivity.
  - intros c. rewrite getAmountMinted_run. unfold outcome. cbn [fst].
    destruct (execute db (mintQuery d user)) as [rows|e] eqn:E.
    + apply mint_rows in E. destruct E as [z ->].
      cbn [bindR idb.exactlyOne]. rewrite bnOf_column. discriminate.
    + unfold execute in E. destruct (online db).
      * unfold mintQuery in E.
        destruct (truthyText (tokenId d)) as [t|]; simpl in E.
        -- destruct (numeric_of_text t); [discriminate E|].
           injection E as <-. simpl. discriminate.
        -- discriminate E.
      * injection E as <-. simpl. discriminate.
  - intros token Hon Hc Hnone.
    destruct (getAmountMinted_value d user db token Hon Hc) as [sel [Hsel Hv]].
    rewrite Hv. f_equal.
    apply (SumOver_functional (MintRecord (contract d) token user) te_amount
             (nft_transfer_events db)).
    + now apply SumOver_filter.
    + now apply SumOver_none.
Qed.

Lemma getAmountMinted_without_records_witness :
  outcome (getAmountMinted (Sample.mintOf "7") Sample.bob Sample.db) = Ok 0.
Proof.
  refine (proj2 (proj2 (getAmountMinted_without_records (Sample.mintOf "7")
                          Sample.bob Sample.db))
            (Some 7) eq_refl
            (SingleToken (Sample.mintOf "7") "7" 7 eq_refl eq_refl) _).
  intros e He [_ [_ [Hto _]]].
  simpl in He.
  repeat (destruct He as [<- | He]; [vm_compute in Hto; discriminate Hto|]).
  contradiction.
Defined.

(** ** The current supply *)

Lemma recordsOf_absent (db : Database) (id : string) :
  (forall c, In c (collections db) -> c_id c <> id) -> recordsOf db id = [].
Proof.
  unfold recordsOf. induction (collections db) as [|c l IH]; intros H.
  - reflexivity.
  - simpl. destruct (String.eqb_spec (c_id c) id) as [E|E].
    + elim (H c); [now left | exact E].
    + apply IH. intros c' Hc'. apply H. now right.
Qed.

Lemma getCurrentSupply_of_token (d : CollectionMint) (db : Database)
    (t : string) (k : Z) :
  online db = true -> tokenId d = Some t -> numeric_of_text t = Some k ->
  outcome (getCurrentSupply d db) =
    Ok (total (map nb_amount
                 (filter (isHeldBalance (toBuffer (contract d)) k)
                    (nft_balances db)))).
Proof.
  intros Hon Ht Hk. rewrite getCurrentSupply_run. unfold outcome, supplyQuery.
  cbn [fst]. rewrite Ht, (numeric_text_truthy t k Hk).
  unfold execute. rewrite Hon. simpl rowsOf. rewrite Hk, coalesce_sum.
  cbn [bindR idb.atMostOne token_count_or_zero]. apply bnOf_column.
Qed.

Lemma getCurrentSupply_of_collection (d : CollectionMint) (db : Database) :
  online db = true -> tokenId d = None ->
  outcome (getCurrentSupply d db) =
    match recordsOf db (collection d) with
    | [] => Ok 0
    | [c] => match c_token_count c with
             | Some n => Ok n
             | None => Ok 0
             end
    | _ => Err (QueryResultError multiple)
    end.
Proof.
  intros Hon Ht. rewrite getCurrentSupply_run. unfold outcome, supplyQuery.
  cbn [fst]. rewrite Ht. simpl truthyText. cbv iota.
  unfold execute. rewrite Hon. simpl rowsOf. fold (recordsOf db (collection d)).
  destruct (recordsOf db (collection d)) as [|c [|c' l]].
  - reflexivity.
  - cbn [map bindR idb.atMostOne token_count_or_zero].
    destruct (c_token_count c) as [n|]; cbn [coalesce]; apply bnOf_column.
  - reflexivity.
Qed.

(** C7.  With the store answering: for a mint of one token,
    [getCurrentSupply] returns the sum of [amount] over the balance records
    of that contract and token with a positive amount, which is [0] when
    there is none; for a mint of a whole collection it returns the
    collection record's cached token count, and [0] when the collection has
    no record. *)
Theorem getCurrentSupply_counts :
  forall (d : CollectionMint) (db : Database),
    online db = true ->
    (forall t k,
       tokenId d = Some t -> numeric_of_text t = Some k ->
       (exists s,
          outcome (getCurrentSupply d db) = Ok s
          /\ SumOver (HeldBalance (contract d) k) nb_amount (nft_balances db) s)
       /\ ((forall b, In b (nft_balances db) -> ~ HeldBalance (contract d) k b) ->
           outcome (getCurrentSupply d db) = Ok 0))
    /\ (tokenId d = None ->
        (forall c n,
           recordsOf db (collection d) = [c] -> c_token_count c = Some n ->
           outcome (getCurrentSupply d db) = Ok n)
        /\ ((forall c, In c (collections db) -> c_id c <> collection d) ->
            outcome (getCurrentSupply d db) = Ok 0)).
Proof.
  intros d db Hon. split.
  - intros t k Ht Hk.
    pose proof (getCurrentSupply_of_token d db t k Hon Ht Hk) as Hv.
    assert (HS : SumOver (HeldBalance (contract d) k) nb_amount (nft_balances db)
                   (total (map nb_amount
                      (filter (isHeldBalance (toBuffer (contract d)) k)
                         (nft_balances db))))).
    { apply SumOver_filter. intros b. apply isHeldBalance_iff. }
    split.
    + eexists. split; [exact Hv | exact HS].
    + intros Hnone. rewrite Hv. f_equal.
      apply (SumOver_functional _ _ _ _ _ HS). now apply SumOver_none.
  - intros Ht.
    pose proof (getCurrentSupply_of_collection d db Hon Ht) as Hv. split.
    + intros c n Hc Hn. rewrite Hv, Hc, Hn. reflexivity.
    + intros Habs. rewrite Hv, (recordsOf_absent _ _ Habs). reflexivity.
Qed.

Lemma getCurrentSupply_counts_witness :
  SumOver (HeldBalance Sample.artist 7) nb_amount (nft_balances Sample.db) 6
  /\ outcome (getCurrentSupply Sample.mint Sample.db) = Ok 100.
Proof.
  split.
  - destruct (proj1 (proj1 (getCurrentSupply_counts (Sample.mintOf "7")
                              Sample.db eq_refl) "7" 7 eq_refl eq_refl))
      as [s [Hs HS]].
    vm_compute in Hs. injection Hs as <-. exact HS.
  - apply (proj1 (proj2 (getCurrentSupply_counts Sample.mint Sample.db eq_refl)
                    eq_refl)
             {| c_id := Sample.artist; c_token_count := Some 100 |} 100);
      reflexivity.
Defined.

(** A collection record without a cached count reads as zero. *)
Lemma getCurrentSupply_null_count (d : CollectionMint) (db : Database)
    (c : Collection) :
  online db = true -> tokenId d = None ->
  recordsOf db (collection d) = [c] -> c_token_count c = None ->
  outcome (getCurrentSupply d db) = Ok 0.
Proof.
  intros Hon Ht Hc Hn.
  now rewrite (getCurrentSupply_of_collection d db Hon Ht), Hc, Hn.
Qed.

(** The earlier revision fails where the current one answers zero: on a
    collection without a record. *)
Lemma legacy_getCurrentSupply_absent_collection :
  outcome (Legacy.getCurrentSupply Sample.mint Sample.crowded) = Ok (2 ^ 256 - 2)
  /\ outcome (Legacy.getCurrentSupply Sample.mint
                (withTransfers [] Sample.offline)) = Err DataUnavailable
  /\ outcome (Legacy.getCurrentSupply
                {| collection := Sample.alice; contract := Sample.artist;
                   tokenId := None; startTime := None; endTime := None;
                   maxSupply := None; status := None |} Sample.db)
     = Err (QueryResultError noData)
  /\ outcome (getCurrentSupply
                {| collection := Sample.alice; contract := Sample.artist;
                   tokenId := None; startTime := None; endTime := None;
                   maxSupply := None; status := None |} Sample.db)
     = Ok 0.
Proof. repeat split. Qed.

(** ** The scenarios of the specification *)

Example scenario_sold_out :
  outcome (getStatus Sample.clock (Sample.capped "100") Sample.db)
  = Ok (closedBecause max_supply_exceeded).
Proof. reflexivity. Qed.

Example scenario_starts_in_an_hour :
  forall db,
    outcome (getStatus Sample.clock
               (Sample.timed (Some (Sample.clock + 3600)) None None None) db)
    = Ok (closedBecause not_yet_started).
Proof. reflexivity. Qed.

Example scenario_sentinel :
  toSafeNumber (Some (JsString "4294967295")) = Ok None
  /\ toSafeNumber (Some (JsString "4294967294")) = Ok (Some "4294967294").
Proof. split; reflexivity. Qed.

Example scenario_exact_comparison :
  outcome (getStatus Sample.clock (Sample.capped Sample.uint256_max)
             Sample.crowded) = Ok isOpen
  /\ outcome (getStatus Sample.clock
                (Sample.capped
                   "115792089237316195423570985008687907853269984665640564039457584007913129639934")
                Sample.crowded) = Ok (closedBecause max_supply_exceeded).
Proof. split; vm_compute; reflexivity. Qed.

(** ** Empty text fields *)

(** An empty [tokenId] or [maxSupply] is falsy and so counts as absent. *)
Lemma empty_tokenId_counts_as_absent (d : CollectionMint) (user : string)
    (db : Database) :
  tokenId d = Some EmptyString ->
  getAmountMinted d user db = getAmountMinted (withTokenId None d) user db
  /\ getCurrentSupply d db = getCurrentSupply (withTokenId None d) db.
Proof.
  intros H. unfold getAmountMinted, getCurrentSupply. rewrite H.
  split; reflexivity.
Qed.

Lemma empty_maxSupply_counts_as_absent (now : Z) (d : CollectionMint)
    (db : Database) :
  ~ Overridden d -> ~ NotYetStarted now d -> ~ Ended now d ->
  maxSupply d = Some EmptyString ->
  getStatus now d db = (Ok isOpen, []).
Proof.
  intros HO HN HE HM. apply getStatus_unlimited; trivial. now rewrite HM.
Qed.

(** ** Exactness of the supply comparison *)

(** Whatever the size of the limit and of the count, the verdict follows
    the comparison of the two integers. *)
Lemma supply_comparison_is_exact (now cap supply : Z) :
  outcome (getStatus now (Sample.capped (toString cap)) (Sample.counted supply))
  = Ok (if cap <=? supply then closedBecause max_supply_exceeded else isOpen).
Proof.
  assert (HO : ~ Overridden (Sample.capped (toString cap))) by discriminate.
  assert (HN : ~ NotYetStarted now (Sample.capped (toString cap))).
  { intros [t [Ht _]]. discriminate Ht. }
  assert (HE : ~ Ended now (Sample.capped (toString cap))).
  { intros [t [Ht _]]. discriminate Ht. }
  rewrite (proj2 (supply_rule_aux now _ (Sample.counted supply) HO HN HE)
             (toString cap) cap supply).
  - now destruct (cap <=? supply).
  - reflexivity.
  - apply fromString_toString.
  - rewrite getCurrentSupply_of_collection; reflexivity.
Qed.

(** * Further properties *)

(** ** What the sanitizers return *)

Lemma toString_nonempty (z : Z) : toString z <> EmptyString.
Proof.
  intros H. pose proof (fromString_toString z) as Hr.
  now apply fromString_nonempty in Hr.
Qed.

Lemma bn_number (n z : Z) : bn (JsNumber n) = Ok z -> z = n.
Proof.
  cbn [bn]. destruct ((MAX_SAFE <=? n) || (n <=? - MAX_SAFE)); [discriminate|].
  rewrite fromString_toString. now intros [= <-].
Qed.

Lemma bn_bigint (n z : Z) : bn (JsBigInt n) = Ok z -> z = n.
Proof. cbn [bn]. rewrite fromString_toString. now intros [= <-]. Qed.

Lemma truthy_of_nonzero (v : BigNumberish) (z : Z) :
  bn v = Ok z -> z <> 0 -> truthy (Some v) = true.
Proof.
  intros Hbn Hz. destruct v as [n|s|n|n]; simpl.
  - apply bn_number in Hbn. subst. now apply negb_true_iff, Z.eqb_neq.
  - simpl in Hbn. apply fromString_nonempty in Hbn.
    now apply negb_true_iff, String.eqb_neq.
  - reflexivity.
  - apply bn_bigint in Hbn. subst. now apply negb_true_iff, Z.eqb_neq.
Qed.

Lemma includes_In (l : list string) (s : string) :
  includes l s = true <-> In s l.
Proof.
  unfold includes. rewrite existsb_exists. split.
  - intros [x [Hx He]]. apply String.eqb_eq in He. now subst.
  - intros H. exists s. split; [exact H | apply String.eqb_refl].
Qed.

Lemma toNumber_Ok (z n : Z) : toNumber z = Ok n -> n = z /\ Z.abs z < 2 ^ 53.
Proof.
  unfold toNumber. destruct (Z.ltb_spec (Z.abs z) (2 ^ 53));
    [intros [= <-]; now split | discriminate].
Qed.

Lemma toNumber_Err (z : Z) (e : Error) :
  toNumber z = Err e <-> 2 ^ 53 <= Z.abs z /\ e = NumericFault.
Proof.
  unfold toNumber. destruct (Z.ltb_spec (Z.abs z) (2 ^ 53)); split.
  - discriminate.
  - intros [H' _]. lia.
  - intros [= <-]. now split.
  - intros [_ ->]. reflexivity.
Qed.

(** What the two sanitizers give for an input denoting [z], whatever its
    form and whether it is truthy or not. *)
Lemma toSafeNumber_of_value (v : BigNumberish) (z : Z) :
  bn v = Ok z ->
  toSafeNumber (Some v) =
    if includes sentinels (toString z) then Ok None else Ok (Some (toString z)).
Proof.
  intros Hbn. destruct (truthy (Some v)) eqn:Ht.
  - now rewrite (toSafeNumber_truthy v Ht), Hbn.
  - destruct (Z.eq_dec z 0) as [-> | Hz].
    + unfold toSafeNumber. now rewrite Ht.
    + rewrite (truthy_of_nonzero v z Hbn Hz) in Ht. discriminate Ht.
Qed.

Lemma toSafeTimestamp_of_value (v : BigNumberish) (z : Z) :
  bn v = Ok z ->
  toSafeTimestamp (Some v) =
    if (z =? 0) || (9999999999 <=? z) then Ok None
    else match toNumber z with
         | Ok n => Ok (Some n)
         | Err e => Err e
         end.
Proof.
  intros Hbn. destruct (truthy (Some v)) eqn:Ht.
  - now rewrite (toSafeTimestamp_truthy v Ht), Hbn.
  - destruct (Z.eq_dec z 0) as [-> | Hz].
    + unfold toSafeTimestamp. now rewrite Ht.
    + rewrite (truthy_of_nonzero v z Hbn Hz) in Ht. discriminate Ht.
Qed.

(** X1.  Whenever [toSafeNumber] returns a text, the text is not empty, is
    none of the six sentinel literals, is the decimal text of the integer
    the input denotes, reads back through [bn] as that integer, and is
    returned unchanged when sanitized again. *)
Theorem toSafeNumber_output :
  forall (v : BigNumberish) (s : string),
    toSafeNumber (Some v) = Ok (Some s) ->
    s <> EmptyString
    /\ ~ In s sentinels
    /\ (exists z, bn v = Ok z /\ s = toString z /\ bn (JsString s) = Ok z)
    /\ toSafeNumber (Some (JsString s)) = Ok (Some s).
Proof.
  intros v s H.
  destruct (toSafeNumber_idempotent v s H) as [Hback Hagain].
  destruct (bn v) as [z|e] eqn:Hbn.
  - rewrite (toSafeNumber_of_value v z Hbn) in H.
    destruct (includes sentinels (toString z)) eqn:Hs; [discriminate H|].
    injection H as <-. repeat split.
    + apply toString_nonempty.
    + intros Hin. apply includes_In in Hin. congruence.
    + exists z. repeat split; trivial.
    + exact Hagain.
  - destruct (truthy (Some v)) eqn:Ht.
    + rewrite (toSafeNumber_truthy v Ht), Hbn in H. discriminate H.
    + unfold toSafeNumber in H. rewrite Ht in H. discriminate H.
Qed.

Lemma toSafeNumber_output_witness :
  ~ In "16" sentinels /\ toSafeNumber (Some (JsString "16")) = Ok (Some "16").
Proof.
  destruct (toSafeNumber_output (JsString "0x10") "16" eq_refl)
    as [_ [Hs [_ Hagain]]].
  split; [exact Hs | exact Hagain].
Defined.

(** X2.  Whenever [toSafeTimestamp] returns a number, it is the integer
    the input denotes, it is not zero, it is below 9999999999 and its
    magnitude is below [2^53]. *)
Theorem toSafeTimestamp_output :
  forall (v : BigNumberish) (n : Z),
    toSafeTimestamp (Some v) = Ok (Some n) ->
    bn v = Ok n /\ n <> 0 /\ n < 9999999999 /\ - 2 ^ 53 < n.
Proof.
  intros v n H. destruct (bn v) as [z|e] eqn:Hbn.
  - rewrite (toSafeTimestamp_of_value v z Hbn) in H.
    destruct ((z =? 0) || (9999999999 <=? z)) eqn:Hg; [discriminate H|].
    apply orb_false_iff in Hg. destruct Hg as [Hz Hthr].
    apply Z.eqb_neq in Hz. apply Z.leb_gt in Hthr.
    destruct (toNumber z) as [m|e] eqn:Hn; [|discriminate H].
    injection H as <-. apply toNumber_Ok in Hn. destruct Hn as [-> Habs].
    repeat split; trivial. lia.
  - destruct (truthy (Some v)) eqn:Ht.
    + rewrite (toSafeTimestamp_truthy v Ht), Hbn in H. discriminate H.
    + unfold toSafeTimestamp in H. rewrite Ht in H. discriminate H.
Qed.

Lemma toSafeTimestamp_output_witness :
  bn (JsString "0x6553f100") = Ok 1700000000 /\ 1700000000 < 9999999999.
Proof.
  destruct (toSafeTimestamp_output (JsString "0x6553f100") 1700000000 eq_refl)
    as [Hbn [_ [Hlt _]]].
  split; [exact Hbn | exact Hlt].
Defined.

(** X3.  The sanitizers look at the integer an input denotes, not at its
    form or spelling: two inputs denoting the same integer (a native
    number, a decimal or hexadecimal text, a big number) get the same
    result from [toSafeNumber] and the same from [toSafeTimestamp]. *)
Theorem sanitizers_go_by_value :
  forall (v1 v2 : BigNumberish) (z : Z),
    bn v1 = Ok z -> bn v2 = Ok z ->
    toSafeNumber (Some v1) = toSafeNumber (Some v2)
    /\ toSafeTimestamp (Some v1) = toSafeTimestamp (Some v2).
Proof.
  intros v1 v2 z H1 H2. split.
  - now rewrite (toSafeNumber_of_value v1 z H1), (toSafeNumber_of_value v2 z H2).
  - now rewrite (toSafeTimestamp_of_value v1 z H1),
      (toSafeTimestamp_of_value v2 z H2).
Qed.

Lemma sanitizers_go_by_value_witness :
  toSafeNumber (Some (JsString "0x7fffffff"))
  = toSafeNumber (Some (JsNumber 2147483647))
  /\ toSafeTimestamp (Some (JsString "-0x10"))
     = toSafeTimestamp (Some (JsBigNumber (-16))).
Proof.
  split.
  - apply (proj1 (sanitizers_go_by_value (JsString "0x7fffffff")
                    (JsNumber 2147483647) 2147483647 eq_refl eq_refl)).
  - apply (proj2 (sanitizers_go_by_value (JsString "-0x10") (JsBigNumber (-16))
                    (-16) eq_refl eq_refl)).
Defined.

(** X4.  [toSafeNumber] raises exactly on a truthy input that [bn]
    rejects, with that error; [toSafeTimestamp] raises exactly on such an
    input, or on one denoting a value of at most [-2^53], with a numeric
    fault.  A falsy input and a value of 9999999999 or more never raise. *)
Theorem sanitizers_failures :
  forall (raw : option BigNumberish) (e : Error),
    (toSafeNumber raw = Err e <->
       exists v, raw = Some v /\ truthy raw = true /\ bn v = Err e)
    /\ (toSafeTimestamp raw = Err e <->
          exists v, raw = Some v /\ truthy raw = true
            /\ (bn v = Err e
                \/ exists z, bn v = Ok z /\ z <= - 2 ^ 53 /\ e = NumericFault)).
Proof.
  intros raw e. split; split.
  - intros H. destruct (truthy raw) eqn:Ht.
    + destruct raw as [v|]; [|discriminate Ht]. exists v.
      rewrite (toSafeNumber_truthy v Ht) in H.
      destruct (bn v) as [z|e'].
      * destruct (includes sentinels (toString z)); discriminate H.
      * injection H as <-. now repeat split.
    + unfold toSafeNumber in H. rewrite Ht in H. discriminate H.
  - intros [v [-> [Ht Hbn]]]. now rewrite (toSafeNumber_truthy v Ht), Hbn.
  - intros H. destruct (truthy raw) eqn:Ht.
    + destruct raw as [v|]; [|discriminate Ht]. exists v.
      rewrite (toSafeTimestamp_truthy v Ht) in H.
      destruct (bn v) as [z|e'].
      * destruct ((z =? 0) || (9999999999 <=? z)) eqn:Hg; [discriminate H|].
        apply orb_false_iff in Hg. destruct Hg as [_ Hthr].
        apply Z.leb_gt in Hthr.
        destruct (toNumber z) as [m|e'] eqn:Hn; [discriminate H|].
        injection H as <-. apply toNumber_Err in Hn. destruct Hn as [Habs ->].
        repeat split. right. exists z. repeat split. lia.
      * injection H as <-. repeat split. now left.
    + unfold toSafeTimestamp in H. rewrite Ht in H. discriminate H.
  - intros [v [-> [Ht [Hbn | [z [Hbn [Hz ->]]]]]]];
      rewrite (toSafeTimestamp_truthy v Ht), Hbn; [reflexivity|].
    destruct ((z =? 0) || (9999999999 <=? z)) eqn:Hg.
    + apply timestamp_guard in Hg. lia.
    + destruct (toNumber z) as [m|e'] eqn:Hn.
      * apply toNumber_Ok in Hn. lia.
      * apply toNumber_Err in Hn. now destruct Hn as [_ ->].
Qed.

Lemma sanitizers_failures_witness :
  toSafeNumber (Some (JsString "0x")) = Err InvalidBigNumber
  /\ toSafeTimestamp (Some (JsString "-9007199254740992")) = Err NumericFault.
Proof.
  split.
  - apply (proj1 (sanitizers_failures (Some (JsString "0x")) InvalidBigNumber)).
    exists (JsString "0x"). split; [reflexivity | split; reflexivity].
  - apply (proj2 (sanitizers_failures (Some (JsString "-9007199254740992"))
                    NumericFault)).
    exists (JsString "-9007199254740992").
    split; [reflexivity | split; [reflexivity|]].
    right. exists (- 9007199254740992).
    split; [reflexivity | split; [lia | reflexivity]].
Defined.

(** X5.  The two revisions of [toSafeTimestamp] agree on every input that
    denotes an integer other than zero; on an input denoting zero the
    earlier one returns [0] where the current one returns absent. *)
Theorem toSafeTimestamp_revisions :
  forall (v : BigNumberish) (z : Z),
    bn v = Ok z ->
    (z <> 0 -> Legacy.toSafeTimestamp v = toSafeTimestamp (Some v))
    /\ (z = 0 ->
        Legacy.toSafeTimestamp v = Ok (Some 0)
        /\ toSafeTimestamp (Some v) = Ok None).
Proof.
  intros v z Hbn.
  rewrite (toSafeTimestamp_of_value v z Hbn).
  unfold Legacy.toSafeTimestamp. rewrite Hbn. cbn [bindR]. split.
  - intros Hz. apply Z.eqb_neq in Hz. rewrite Hz. cbn [orb].
    destruct (9999999999 <=? z); [reflexivity|].
    now destruct (toNumber z).
  - intros ->. split; reflexivity.
Qed.

Lemma toSafeTimestamp_revisions_witness :
  Legacy.toSafeTimestamp (JsString "1700000000")
  = toSafeTimestamp (Some (JsString "1700000000"))
  /\ Legacy.toSafeTimestamp (JsBigNumber 0) = Ok (Some 0).
Proof.
  split.
  - apply (proj1 (toSafeTimestamp_revisions (JsString "1700000000") 1700000000
                    eq_refl)). discriminate.
  - apply (proj2 (toSafeTimestamp_revisions (JsBigNumber 0) 0 eq_refl) eq_refl).
Defined.

(** ** The sale window *)

Lemma NotYetStarted_at (now s : Z) (d : CollectionMint) :
  startTime d = Some s -> s <> 0 -> (NotYetStarted now d <-> now <= s).
Proof.
  intros Hs Hnz. unfold NotYetStarted. split.
  - intros [t [Ht [_ Hle]]]. congruence.
  - intros Hle. now exists s.
Qed.

Lemma Ended_at (now e : Z) (d : CollectionMint) :
  endTime d = Some e -> e <> 0 -> (Ended now d <-> e <= now).
Proof.
  intros He Hnz. unfold Ended. split.
  - intros [t [Ht [_ Hle]]]. congruence.
  - intros Hle. now exists e.
Qed.

(** X6.  For a mint without override and without supply limit whose start
    and end times are both set and not zero, the verdict is open exactly
    while the clock is strictly between the two: at the start time itself
    the mint has not yet started, and from the end time on (when that is
    after the start) it has ended. *)
Theorem open_strictly_inside_window :
  forall (now : Z) (d : CollectionMint) (db : Database) (s e : Z),
    ~ Overridden d -> maxSupply d = None ->
    startTime d = Some s -> endTime d = Some e -> s <> 0 -> e <> 0 ->
    (outcome (getStatus now d db) = Ok isOpen <-> s < now < e)
    /\ (now <= s ->
        outcome (getStatus now d db) = Ok (closedBecause not_yet_started))
    /\ (s < now -> e <= now ->
        outcome (getStatus now d db) = Ok (closedBecause ended)).
Proof.
  intros now d db s e HO HM Hs He Hsz Hez.
  pose proof (NotYetStarted_at now s d Hs Hsz) as HN.
  pose proof (Ended_at now e d He Hez) as HE.
  assert (Hearly : now <= s ->
            outcome (getStatus now d db) = Ok (closedBecause not_yet_started)).
  { intros H. rewrite getStatus_not_yet_started; trivial. now apply HN. }
  assert (Hlate : s < now -> e <= now ->
            outcome (getStatus now d db) = Ok (closedBecause ended)).
  { intros H1 H2. rewrite getStatus_ended; trivial.
    - intros H. apply HN in H. lia.
    - now apply HE. }
  split; [|split; assumption].
  destruct (Z_le_gt_dec now s) as [H1 | H1].
  - rewrite (Hearly H1). split; [discriminate | lia].
  - destruct (Z_le_gt_dec e now) as [H2 | H2].
    + rewrite (Hlate ltac:(lia) H2). split; [discriminate | lia].
    + rewrite getStatus_unlimited; trivial.
      * split; [lia | reflexivity].
      * intros H. apply HN in H. lia.
      * intros H. apply HE in H. lia.
      * now rewrite HM.
Qed.

Lemma open_strictly_inside_window_witness :
  outcome (getStatus 1700000000
             (Sample.timed (Some 1700000000) (Some 1800000000) None None)
             Sample.db)
  = Ok (closedBecause not_yet_started)
  /\ outcome (getStatus 1700000001
                (Sample.timed (Some 1700000000) (Some 1800000000) None None)
                Sample.db)
     = Ok isOpen.
Proof.
  split.
  - refine (proj1 (proj2 (open_strictly_inside_window 1700000000
              (Sample.timed (Some 1700000000) (Some 1800000000) None None)
              Sample.db 1700000000 1800000000 _ _ _ _ _ _)) _);
      try reflexivity; try discriminate; lia.
  - refine (proj2 (proj1 (open_strictly_inside_window 1700000001
              (Sample.timed (Some 1700000000) (Some 1800000000) None None)
              Sample.db 1700000000 1800000000 _ _ _ _ _ _)) _);
      try reflexivity; try discriminate; lia.
Defined.

(** X7.  A mint whose end time is not after its start time (both set and
    not zero) is closed at every clock reading, whatever its supply limit
    and the store hold, and resolving it sends no query. *)
Theorem empty_window_never_opens :
  forall (now : Z) (d : CollectionMint) (db : Database) (s e : Z),
    startTime d = Some s -> endTime d = Some e -> s <> 0 -> e <> 0 ->
    e <= s ->
    exists v,
      getStatus now d db = (Ok v, []) /\ verdict_status v = status_closed.
Proof.
  intros now d db s e Hs He Hsz Hez Hle.
  destruct (isClosed (status d)) eqn:EO.
  - apply isClosed_iff in EO. exists closedUnexplained.
    split; [now apply getStatus_overridden | reflexivity].
  - assert (HO : ~ Overridden d).
    { intros H. apply isClosed_iff in H. congruence. }
    destruct (Z_le_gt_dec now s) as [H1 | H1].
    + exists (closedBecause not_yet_started).
      split; [|reflexivity]. apply getStatus_not_yet_started; trivial.
      now apply (NotYetStarted_at now s d Hs Hsz).
    + exists (closedBecause ended).
      split; [|reflexivity]. apply getStatus_ended; trivial.
      * intros H. apply (NotYetStarted_at now s d Hs Hsz) in H. lia.
      * apply (Ended_at now e d He Hez). lia.
Qed.

Lemma empty_window_never_opens_witness :
  exists v,
    getStatus Sample.clock
      (Sample.timed (Some 1800000000) (Some 1600000000) None None) Sample.offline
    = (Ok v, [])
    /\ verdict_status v = status_closed.
Proof.
  apply (empty_window_never_opens Sample.clock
           (Sample.timed (Some 1800000000) (Some 1600000000) None None)
           Sample.offline 1800000000 1600000000);
    try reflexivity; try discriminate; lia.
Defined.

Lemma getStatus_ended_inv (now : Z) (d : CollectionMint) (db : Database) :
  outcome (getStatus now d db) = Ok (closedBecause ended) ->
  ~ Overridden d /\ ~ NotYetStarted now d /\ Ended now d.
Proof.
  intros Hv.
  destruct (getStatus_cases now d db)
    as [[HO H] | [[HO [HN H]] | [[HO [HN [HE H]]] | [[HO [HN [HE [HM H]]]]
       | [HO [HN [HE [limit [HM [HQ H]]]]]]]]]];
    try (rewrite H in Hv; discriminate Hv).
  - now repeat split.
  - destruct H as [H | [H | [e H]]]; rewrite H in Hv; discriminate Hv.
Qed.

Lemma getStatus_not_yet_started_inv (now : Z) (d : CollectionMint)
    (db : Database) :
  outcome (getStatus now d db) = Ok (closedBecause not_yet_started) ->
  ~ Overridden d /\ NotYetStarted now d.
Proof.
  intros Hv.
  destruct (getStatus_cases now d db)
    as [[HO H] | [[HO [HN H]] | [[HO [HN [HE H]]] | [[HO [HN [HE [HM H]]]]
       | [HO [HN [HE [limit [HM [HQ H]]]]]]]]]];
    try (rewrite H in Hv; discriminate Hv).
  - now split.
  - destruct H as [H | [H | [e H]]]; rewrite H in Hv; discriminate Hv.
Qed.

(** X8.  The timing verdicts are stable in time and do not depend on the
    store: a mint found ended at one clock reading is found ended at every
    later reading, and a mint found not yet started is found so at every
    earlier reading, against any store. *)
Theorem timing_verdicts_are_stable :
  forall (now now' : Z) (d : CollectionMint) (db db' : Database),
    (outcome (getStatus now d db) = Ok (closedBecause ended) ->
     now <= now' ->
     getStatus now' d db' = (Ok (closedBecause ended), []))
    /\ (outcome (getStatus now d db) = Ok (closedBecause not_yet_started) ->
        now' <= now ->
        getStatus now' d db' = (Ok (closedBecause not_yet_started), [])).
Proof.
  intros now now' d db db'. split.
  - intros Hv Hle. apply getStatus_ended_inv in Hv.
    destruct Hv as [HO [HN [t [Ht [Hnz He]]]]].
    apply getStatus_ended; trivial.
    + intros [s [Hs [Hsz Hns]]]. apply HN. exists s. repeat split; trivial. lia.
    + exists t. repeat split; trivial. lia.
  - intros Hv Hle. apply getStatus_not_yet_started_inv in Hv.
    destruct Hv as [HO [t [Ht [Hnz Hs]]]].
    apply getStatus_not_yet_started; trivial.
    exists t. repeat split; trivial. lia.
Qed.

Lemma timing_verdicts_are_stable_witness :
  getStatus 1900000000
    (Sample.timed (Some 1500000000) (Some 1600000000) (Some "1") None)
    Sample.offline
  = (Ok (closedBecause ended), []).
Proof.
  apply (proj1 (timing_verdicts_are_stable Sample.clock 1900000000
                  (Sample.timed (Some 1500000000) (Some 1600000000)
                     (Some "1") None) Sample.db Sample.offline)).
  - reflexivity.
  - unfold Sample.clock. lia.
Defined.

(** ** What a resolution depends on *)

Lemma execute_supply_frame (db : Database) (d : CollectionMint)
    (l : list NftTransferEvent) :
  execute (withTransfers l db) (supplyQuery d) = execute db (supplyQuery d).
Proof.
  unfold execute, withTransfers, supplyQuery. cbn [online].
  destruct (online db); [|reflexivity].
  destruct (truthyText (tokenId d)); reflexivity.
Qed.

Lemma getCurrentSupply_frame (db : Database) (d : CollectionMint)
    (l : list NftTransferEvent) :
  getCurrentSupply d (withTransfers l db) = getCurrentSupply d db.
Proof. now rewrite !getCurrentSupply_run, execute_supply_frame. Qed.

Lemma getStatus_by_supply (now : Z) (d : CollectionMint) (db db' : Database) :
  getCurrentSupply d db' = getCurrentSupply d db ->
  getStatus now d db' = getStatus now d db.
Proof.
  intros H. unfold getStatus.
  destruct (isClosed (status d)); [reflexivity|].
  destruct (startsLater now d); [reflexivity|].
  destruct (hasEnded now d); [reflexivity|].
  destruct (truthyText (maxSupply d)) as [limit|]; [|reflexivity].
  unfold bind, lift, ret. rewrite H.
  destruct (getCurrentSupply d db) as [[supply|e] sent]; [|reflexivity].
  destruct (bn (JsString limit)) as [cap|e]; [|reflexivity].
  now destruct (cap <=? supply).
Qed.

(** X9.  A resolution reads the store only through the supply count: two
    stores on which [getCurrentSupply] does the same give the same
    [getStatus], queries included.  In particular the transfer records
    never matter to [getStatus] or [getCurrentSupply], the collection
    records never matter to the supply of a single-token mint, and the
    balance records never matter to the supply of a whole-collection
    mint. *)
Theorem resolution_reads_only_the_supply :
  forall (now : Z) (d : CollectionMint) (db : Database),
    (forall db',
       getCurrentSupply d db' = getCurrentSupply d db ->
       getStatus now d db' = getStatus now d db)
    /\ (forall l,
          getCurrentSupply d (withTransfers l db) = getCurrentSupply d db
          /\ getStatus now d (withTransfers l db) = getStatus now d db)
    /\ (forall l t,
          truthyText (tokenId d) = Some t ->
          getCurrentSupply d (withCollections l db) = getCurrentSupply d db)
    /\ (forall l,
          truthyText (tokenId d) = None ->
          getCurrentSupply d (withBalances l db) = getCurrentSupply d db).
Proof.
  intros now d db. split; [|split; [|split]].
  - intros db'. apply getStatus_by_supply.
  - intros l. split; [apply getCurrentSupply_frame|].
    apply getStatus_by_supply, getCurrentSupply_frame.
  - intros l t Ht. rewrite !getCurrentSupply_run.
    unfold supplyQuery, execute, withCollections. rewrite Ht. cbn [online].
    reflexivity.
  - intros l Ht. rewrite !getCurrentSupply_run.
    unfold supplyQuery, execute, withBalances. rewrite Ht. cbn [online].
    reflexivity.
Qed.

Lemma resolution_reads_only_the_supply_witness :
  getCurrentSupply (Sample.mintOf "7") (withCollections [] Sample.db)
  = getCurrentSupply (Sample.mintOf "7") Sample.db
  /\ getCurrentSupply Sample.mint (withBalances [] Sample.db)
     = getCurrentSupply Sample.mint Sample.db.
Proof.
  split.
  - apply (proj1 (proj2 (proj2 (resolution_reads_only_the_supply Sample.clock
                                  (Sample.mintOf "7") Sample.db))) [] "7").
    reflexivity.
  - apply (proj2 (proj2 (proj2 (resolution_reads_only_the_supply Sample.clock
                                  Sample.mint Sample.db))) []).
    reflexivity.
Defined.

(** X10.  [getStatus] fails only at the supply check: exactly when the
    mint is not overridden, neither timing rule fires, [maxSupply] is set
    and not empty, and either [getCurrentSupply] fails (with that error) or
    it succeeds and [maxSupply] is not a number.  So a malformed
    [maxSupply] goes unnoticed while the override or a timing rule
    decides, and is reported only after the supply was counted. *)
Theorem getStatus_failures :
  forall (now : Z) (d : CollectionMint) (db : Database) (e : Error),
    outcome (getStatus now d db) = Err e <->
    ~ Overridden d /\ ~ NotYetStarted now d /\ ~ Ended now d
    /\ exists limit,
         maxSupply d = Some limit /\ limit <> EmptyString
         /\ (outcome (getCurrentSupply d db) = Err e
             \/ exists supply,
                  outcome (getCurrentSupply d db) = Ok supply
                  /\ bn (JsString limit) = Err e).
Proof.
  intros now d db e. split.
  - intros Hv.
    destruct (getStatus_cases now d db)
      as [[HO H] | [[HO [HN H]] | [[HO [HN [HE H]]] | [[HO [HN [HE [HM H]]]]
         | [HO [HN [HE [limit [HM [HQ _]]]]]]]]]];
      try (rewrite H in Hv; discriminate Hv).
    repeat split; trivial. exists limit.
    rewrite (getStatus_limited now d db limit HO HN HE HM) in Hv.
    apply truthyText_present in HM. destruct HM as [HM Hne].
    repeat split; trivial.
    unfold outcome in *. cbn [fst] in Hv.
    destruct (fst (getCurrentSupply d db)) as [supply|e'].
    + right. exists supply. split; [reflexivity|].
      destruct (bn (JsString limit)) as [cap|e'].
      * destruct (cap <=? supply); discriminate Hv.
      * now injection Hv as <-.
    + left. now injection Hv as <-.
  - intros [HO [HN [HE [limit [HM [Hne H]]]]]].
    assert (HT : truthyText (maxSupply d) = Some limit).
    { rewrite HM. simpl. destruct (String.eqb_spec limit EmptyString);
        [contradiction | reflexivity]. }
    rewrite (getStatus_limited now d db limit HO HN HE HT).
    unfold outcome in *. cbn [fst].
    destruct H as [H | [supply [H Hbn]]]; rewrite H; [reflexivity|].
    now rewrite Hbn.
Qed.

Lemma getStatus_failures_witness :
  outcome (getStatus Sample.clock (Sample.capped "0x") Sample.db)
  = Err InvalidBigNumber.
Proof.
  apply (proj2 (getStatus_failures Sample.clock (Sample.capped "0x")
                  Sample.db InvalidBigNumber)).
  split; [discriminate|].
  split; [intros [t [Ht _]]; discriminate Ht|].
  split; [intros [t [Ht _]]; discriminate Ht|].
  exists "0x". split; [reflexivity|]. split; [discriminate|].
  right. exists 100. split; reflexivity.
Defined.

(** X11.  A sold-out verdict survives any growth of the supply: when a
    resolution ends in closed, max supply exceeded, against one store, it
    ends the same against every store whose supply count is at least as
    large. *)
Theorem sold_out_stays_sold_out :
  forall (now : Z) (d : CollectionMint) (db db' : Database) (supply supply' : Z),
    outcome (getStatus now d db) = Ok (closedBecause max_supply_exceeded) ->
    outcome (getCurrentSupply d db) = Ok supply ->
    outcome (getCurrentSupply d db') = Ok supply' ->
    supply <= supply' ->
    outcome (getStatus now d db') = Ok (closedBecause max_supply_exceeded).
Proof.
  intros now d db db' supply supply' Hv Hs Hs' Hle.
  destruct (getStatus_cases now d db)
    as [[HO H] | [[HO [HN H]] | [[HO [HN [HE H]]] | [[HO [HN [HE [HM H]]]]
       | [HO [HN [HE [limit [HM [HQ _]]]]]]]]]];
    try (rewrite H in Hv; discriminate Hv).
  rewrite (getStatus_limited now d db limit HO HN HE HM) in Hv.
  rewrite (getStatus_limited now d db' limit HO HN HE HM).
  unfold outcome in *. cbn [fst] in *. rewrite Hs in Hv. rewrite Hs'.
  destruct (bn (JsString limit)) as [cap|e]; [|discriminate Hv].
  destruct (Z.leb_spec cap supply); [|discriminate Hv].
  destruct (Z.leb_spec cap supply'); [reflexivity | lia].
Qed.

Lemma sold_out_stays_sold_out_witness :
  outcome (getStatus Sample.clock (Sample.capped "100") Sample.crowded)
  = Ok (closedBecause max_supply_exceeded).
Proof.
  apply (sold_out_stays_sold_out Sample.clock (Sample.capped "100") Sample.db
           Sample.crowded 100 (2 ^ 256 - 2)).
  - reflexivity.
  - reflexivity.
  - reflexivity.
  - lia.
Defined.

(** ** More on the counters *)

Lemma total_filter_insert {A : Type} (sel : A -> bool) (f : A -> Z)
    (before after : list A) (a : A) :
  sel a = true ->
  total (map f (filter sel (before ++ a :: after)))
  = total (map f (filter sel (before ++ after))) + f a.
Proof.
  intros Ha. induction before as [|b before IH]; simpl.
  - rewrite Ha. simpl. unfold total. lia.
  - destruct (sel b); simpl; unfold total in *; simpl; lia.
Qed.

(** X12.  Recording one more mint adds its amount: with the store
    answering, inserting anywhere in the table a transfer record that
    counts as a mint by the user (for the token the mint covers) raises
    [getAmountMinted] by exactly that record's amount. *)
Theorem recording_a_mint_adds_its_amount :
  forall (d : CollectionMint) (user : string) (db : Database)
         (token : option Z) (before after : list NftTransferEvent)
         (e : NftTransferEvent) (s : Z),
    online db = true -> Covers d token ->
    nft_transfer_events db = before ++ after ->
    MintRecord (contract d) token user e ->
    outcome (getAmountMinted d user db) = Ok s ->
    outcome (getAmountMinted d user (withTransfers (before ++ e :: after) db))
    = Ok (s + te_amount e).
Proof.
  intros d user db token before after e s Hon Hc Hev He Hs.
  destruct (getAmountMinted_value d user db token Hon Hc) as [sel [Hsel Hv]].
  destruct (getAmountMinted_value d user (withTransfers (before ++ e :: after) db)
              token Hon Hc) as [sel' [Hsel' Hv']].
  rewrite Hv'. cbn [withTransfers nft_transfer_events].
  rewrite total_filter_insert by now apply Hsel'.
  rewrite Hs in Hv. injection Hv as ->. rewrite Hev. do 2 f_equal.
  apply (SumOver_functional (MintRecord (contract d) token user) te_amount
           (before ++ after)); now apply SumOver_filter.
Qed.

Lemma recording_a_mint_adds_its_amount_witness :
  outcome (getAmountMinted (Sample.mintOf "7") Sample.bob
             (withTransfers [ Sample.transfer 7 AddressZero Sample.bob 9 0 ]
                Sample.offline))
  = Err DataUnavailable
  /\ outcome (getAmountMinted (Sample.mintOf "7") Sample.bob
                (withTransfers
                   (Sample.transfer 7 AddressZero Sample.bob 9 0
                    :: nft_transfer_events Sample.db) Sample.db))
     = Ok (0 + 9).
Proof.
  split; [reflexivity|].
  apply (recording_a_mint_adds_its_amount (Sample.mintOf "7") Sample.bob
           Sample.db (Some 7) [] (nft_transfer_events Sample.db)
           (Sample.transfer 7 AddressZero Sample.bob 9 0) 0).
  - reflexivity.
  - now apply (SingleToken (Sample.mintOf "7") "7" 7).
  - reflexivity.
  - unfold MintRecord. simpl.
    split; [reflexivity|]. split; [reflexivity|]. split; [reflexivity|].
    split; [reflexivity|]. now intros k [= <-].
  - reflexivity.
Defined.

Lemma total_filter_le {A : Type} (p q : A -> bool) (f : A -> Z) (l : list A) :
  (forall a, p a = true -> q a = true) ->
  (forall a, In a l -> 0 <= f a) ->
  0 <= total (map f (filter p l)) <= total (map f (filter q l)).
Proof.
  intros Hpq Hf. induction l as [|a l IH]; simpl.
  - unfold total. simpl. lia.
  - assert (Ha : 0 <= f a) by (apply Hf; now left).
    assert (IH' : 0 <= total (map f (filter p l)) <= total (map f (filter q l))).
    { apply IH. intros b Hb. apply Hf. now right. }
    destruct (p a) eqn:Hp.
    + rewrite (Hpq a Hp). unfold total in *. simpl. lia.
    + destruct (q a); unfold total in *; simpl; lia.
Qed.

(** X13.  A user's count for one token never exceeds the user's count for
    the whole collection: with the store answering and no negative amount
    in the transfer table, [getAmountMinted] for a single-token mint is
    between zero and [getAmountMinted] for the same mint without its
    token. *)
Theorem token_count_within_collection_count :
  forall (d : CollectionMint) (user : string) (db : Database) (t : string) (k : Z),
    online db = true ->
    tokenId d = Some t -> numeric_of_text t = Some k ->
    (forall e, In e (nft_transfer_events db) -> 0 <= te_amount e) ->
    exists one all,
      outcome (getAmountMinted d user db) = Ok one
      /\ outcome (getAmountMinted (withTokenId None d) user db) = Ok all
      /\ 0 <= one <= all.
Proof.
  intros d user db t k Hon Ht Hk Hpos.
  destruct (getAmountMinted_value d user db (Some k) Hon
              (SingleToken d t k Ht Hk)) as [p [Hp Hone]].
  destruct (getAmountMinted_value (withTokenId None d) user db None Hon
              (WholeCollection (withTokenId None d) eq_refl)) as [q [Hq Hall]].
  eexists. eexists. split; [exact Hone|]. split; [exact Hall|].
  apply total_filter_le; [|exact Hpos].
  intros e He. apply Hq. apply Hp in He.
  destruct He as [Ha [Hf [Hto [Hd _]]]].
  repeat split; trivial. discriminate.
Qed.

Lemma token_count_within_collection_count_witness :
  exists one all,
    outcome (getAmountMinted (Sample.mintOf "7") Sample.alice Sample.db) = Ok one
    /\ outcome (getAmountMinted (withTokenId None (Sample.mintOf "7"))
                  Sample.alice Sample.db) = Ok all
    /\ 0 <= one <= all.
Proof.
  apply (token_count_within_collection_count (Sample.mintOf "7") Sample.alice
           Sample.db "7" 7); try reflexivity.
  intros e He. simpl in He.
  repeat (destruct He as [<- | He]; [simpl; lia|]). contradiction.
Defined.

Lemma total_positive (l : list Z) :
  (forall x, In x l -> 0 < x) -> 0 <= total l /\ (total l = 0 <-> l = []).
Proof.
  induction l as [|x l IH]; intros H.
  - split; [unfold total; simpl; lia | split; reflexivity].
  - assert (Hx : 0 < x) by (apply H; now left).
    destruct IH as [IH _]; [intros y Hy; apply H; now right|].
    unfold total in *. simpl. split; [lia|]. split; [lia | discriminate].
Qed.

(** X14.  With the store answering, the supply of a single-token mint is
    never negative, whatever amounts the balance table holds, and it is
    zero exactly when no balance record of that contract and token has a
    positive amount. *)
Theorem token_supply_is_not_negative :
  forall (d : CollectionMint) (db : Database) (t : string) (k : Z),
    online db = true ->
    tokenId d = Some t -> numeric_of_text t = Some k ->
    exists supply,
      outcome (getCurrentSupply d db) = Ok supply
      /\ 0 <= supply
      /\ (supply = 0 <->
          forall b, In b (nft_balances db) -> ~ HeldBalance (contract d) k b).
Proof.
  intros d db t k Hon Ht Hk.
  eexists. split; [apply (getCurrentSupply_of_token d db t k Hon Ht Hk)|].
  set (held := filter (isHeldBalance (toBuffer (contract d)) k) (nft_balances db)).
  assert (Hpos : forall x, In x (map nb_amount held) -> 0 < x).
  { intros x Hx. apply in_map_iff in Hx. destruct Hx as [b [<- Hb]].
    apply filter_In in Hb. destruct Hb as [_ Hb].
    apply isHeldBalance_iff in Hb. apply Hb. }
  destruct (total_positive _ Hpos) as [Hge Hzero].
  split; [exact Hge|]. rewrite Hzero. split.
  - intros Hnil b Hb Hheld.
    assert (Hin : In b held).
    { apply filter_In. split; [exact Hb | now apply isHeldBalance_iff]. }
    apply (in_map nb_amount) in Hin. rewrite Hnil in Hin. contradiction.
  - intros Hnone. destruct held as [|b rest] eqn:E; [reflexivity|].
    assert (Hin : In b held) by (rewrite E; now left).
    apply filter_In in Hin. destruct Hin as [Hb Hsel].
    apply isHeldBalance_iff in Hsel. elim (Hnone b Hb Hsel).
Qed.

Lemma token_supply_is_not_negative_witness :
  exists supply,
    outcome (getCurrentSupply (Sample.mintOf "9") Sample.db) = Ok supply
    /\ 0 <= supply
    /\ (supply = 0 <->
        forall b, In b (nft_balances Sample.db) ->
                  ~ HeldBalance Sample.artist 9 b).
Proof.
  apply (token_supply_is_not_negative (Sample.mintOf "9") Sample.db "9" 9);
    reflexivity.
Defined.

(** X15.  Each counter costs exactly one query to the store, whether it
    succeeds or fails, and a resolution costs at most one. *)
Theorem store_round_trips :
  forall (now : Z) (d : CollectionMint) (user : string) (db : Database),
    queries (getAmountMinted d user db) = [mintQuery d user]
    /\ queries (getCurrentSupply d db) = [supplyQuery d]
    /\ (List.length (queries (getStatus now d db)) <= 1)%nat.
Proof.
  intros now d user db. split; [|split].
  - now rewrite getAmountMinted_run.
  - apply queries_getCurrentSupply.
  - destruct (getStatus_cases now d db)
      as [[HO H] | [[HO [HN H]] | [[HO [HN [HE H]]] | [[HO [HN [HE [HM H]]]]
         | [HO [HN [HE [limit [HM [HQ H]]]]]]]]]];
      try (rewrite H; simpl; lia).
    rewrite HQ. simpl. lia.
Qed.

(** ** The two revisions of the supply counter and of the resolver *)

Lemma legacy_getCurrentSupply_run (d : CollectionMint) (db : Database) :
  Legacy.getCurrentSupply d db =
    (bindR (bindR (execute db
                     match truthyText (tokenId d) with
                     | Some t => BalancesOfToken (toBuffer (contract d)) t
                     | None => CollectionTokenCountRaw (collection d)
                     end) idb.exactlyOne)
       (fun r => bnOf (column r)),
     [match truthyText (tokenId d) with
      | Some t => BalancesOfToken (toBuffer (contract d)) t
      | None => CollectionTokenCountRaw (collection d)
      end]).
Proof.
  unfold Legacy.getCurrentSupply, bind, ret, lift, idb.one.
  destruct (truthyText (tokenId d)) as [t|].
  - destruct (bindR (execute db _) idb.exactlyOne); reflexivity.
  - destruct (bindR (execute db _) idb.exactlyOne); reflexivity.
Qed.

Lemma legacy_supply_of_collection (d : CollectionMint) (db : Database) :
  online db = true -> tokenId d = None ->
  outcome (Legacy.getCurrentSupply d db) =
    match recordsOf db (collection d) with
    | [] => Err (QueryResultError noData)
    | [c] => match c_token_count c with
             | Some n => Ok n
             | None => Err InvalidBigNumber
             end
    | _ => Err (QueryResultError multiple)
    end.
Proof.
  intros Hon Ht. rewrite legacy_getCurrentSupply_run. unfold outcome.
  cbn [fst]. rewrite Ht. simpl truthyText. cbv iota.
  unfold execute. rewrite Hon. simpl rowsOf. fold (recordsOf db (collection d)).
  destruct (recordsOf db (collection d)) as [|c [|c' l]].
  - reflexivity.
  - cbn [map bindR idb.exactlyOne].
    destruct (c_token_count c) as [n|]; [apply bnOf_column | reflexivity].
  - reflexivity.
Qed.

(** X16.  The earlier and the current [getCurrentSupply] agree on every
    single-token mint, against any store, and on a whole-collection mint
    whose collection has one record with a cached count.  They differ on a
    whole-collection mint, with the store answering, in two cases: with no
    collection record the earlier one fails for lack of a row where the
    current one returns zero, and with a record whose count is missing the
    earlier one fails on the missing number where the current one returns
    zero. *)
Theorem getCurrentSupply_revisions :
  forall (d : CollectionMint) (db : Database),
    (forall t,
       truthyText (tokenId d) = Some t ->
       outcome (Legacy.getCurrentSupply d db) = outcome (getCurrentSupply d db))
    /\ (online db = true -> tokenId d = None ->
        (forall c n,
           recordsOf db (collection d) = [c] -> c_token_count c = Some n ->
           outcome (Legacy.getCurrentSupply d db) = Ok n
           /\ outcome (getCurrentSupply d db) = Ok n)
        /\ (recordsOf db (collection d) = [] ->
            outcome (Legacy.getCurrentSupply d db) = Err (QueryResultError noData)
            /\ outcome (getCurrentSupply d db) = Ok 0)
        /\ (forall c,
              recordsOf db (collection d) = [c] -> c_token_count c = None ->
              outcome (Legacy.getCurrentSupply d db) = Err InvalidBigNumber
              /\ outcome (getCurrentSupply d db) = Ok 0)).
Proof.
  intros d db. split.
  - intros t Ht. rewrite legacy_getCurrentSupply_run, getCurrentSupply_run.
    unfold outcome, supplyQuery. cbn [fst]. rewrite Ht.
    unfold execute. destruct (online db); [|reflexivity].
    simpl rowsOf. destruct (numeric_of_text t) as [k|]; reflexivity.
  - intros Hon Ht.
    rewrite (legacy_supply_of_collection d db Hon Ht),
      (getCurrentSupply_of_collection d db Hon Ht).
    split; [|split].
    + intros c n -> ->. now split.
    + intros ->. now split.
    + intros c -> ->. now split.
Qed.

Lemma getCurrentSupply_revisions_witness :
  outcome (Legacy.getCurrentSupply (Sample.mintOf "7") Sample.db)
  = outcome (getCurrentSupply (Sample.mintOf "7") Sample.db)
  /\ outcome (Legacy.getCurrentSupply Sample.mint Sample.offline)
     = outcome (getCurrentSupply Sample.mint Sample.offline)
  /\ outcome (Legacy.getCurrentSupply Sample.mint
                (withCollections [] Sample.db))
     = Err (QueryResultError noData).
Proof.
  split; [|split].
  - apply (proj1 (getCurrentSupply_revisions (Sample.mintOf "7") Sample.db) "7").
    reflexivity.
  - reflexivity.
  - apply (proj1 (proj2 (proj2 (getCurrentSupply_revisions Sample.mint
                                  (withCollections [] Sample.db))
                           eq_refl eq_refl)) eq_refl).
Defined.

(** X17.  On a mint without the override, the earlier [getStatus] returns
    the status of the verdict of the current one, and fails when it fails,
    whenever the two supply counters do the same on that mint and store. *)
Theorem getStatus_revisions :
  forall (now : Z) (d : CollectionMint) (db : Database),
    ~ Overridden d ->
    outcome (Legacy.getCurrentSupply d db) = outcome (getCurrentSupply d db) ->
    outcome (Legacy.getStatus now d db)
    = mapR verdict_status (outcome (getStatus now d db)).
Proof.
  intros now d db HO Hsame. apply isClosed_false in HO.
  unfold Legacy.getStatus, getStatus. rewrite HO.
  destruct (startsLater now d); [reflexivity|].
  destruct (hasEnded now d); [reflexivity|].
  destruct (truthyText (maxSupply d)) as [limit|]; [|reflexivity].
  unfold bind, lift, ret, outcome in *.
  destruct (Legacy.getCurrentSupply d db) as [r sent].
  destruct (getCurrentSupply d db) as [r' sent'].
  cbn [fst] in Hsame. subst r'.
  destruct r as [supply|e]; [|reflexivity].
  destruct (bn (JsString limit)) as [cap|e]; [|reflexivity].
  now destruct (cap <=? supply).
Qed.

Lemma getStatus_revisions_witness :
  outcome (Legacy.getStatus Sample.clock (Sample.capped "100") Sample.db)
  = mapR verdict_status
      (outcome (getStatus Sample.clock (Sample.capped "100") Sample.db)).
Proof.
  apply (getStatus_revisions Sample.clock (Sample.capped "100") Sample.db).
  - discriminate.
  - reflexivity.
Defined.

(** ** Contract reads *)

(** X18.  [getContractKind] answers ERC-721 exactly when the first probe
    returns true; otherwise, whether the first probe said no or failed, it
    goes on to the second probe and answers ERC-1155 exactly when that one
    returns true; it answers nothing when neither does.  So a contract
    that passes both probes is ERC-721, and a failing probe never stops
    the detection. *)
Theorem contract_kind_detection :
  forall (chain : Chain) (contract : string),
    (fst (getContractKind chain contract) = Some erc721 <->
       supportsInterface (chain contract) "0x80ac58cd" = Ok true)
    /\ (fst (getContractKind chain contract) = Some erc1155 <->
          supportsInterface (chain contract) "0x80ac58cd" <> Ok true
          /\ supportsInterface (chain contract) "0xd9b67a26" = Ok true)
    /\ (fst (getContractKind chain contract) = None <->
          supportsInterface (chain contract) "0x80ac58cd" <> Ok true
          /\ supportsInterface (chain contract) "0xd9b67a26" <> Ok true)
    /\ (In (CallSupportsInterface "0xd9b67a26")
           (snd (getContractKind chain contract)) <->
          supportsInterface (chain contract) "0x80ac58cd" <> Ok true).
Proof.
  intros chain contract. unfold getContractKind.
  destruct (supportsInterface (chain contract) "0x80ac58cd") as [[|]|e1];
    destruct (supportsInterface (chain contract) "0xd9b67a26") as [[|]|e2];
    simpl; repeat split; try congruence; try tauto;
    try (intros [H1 H2]; congruence);
    try (intros [H | [H | []]]; congruence);
    try (intros [H | []]; discriminate H);
    try (intros H; elim H; reflexivity);
    try (intros _; right; left; reflexivity).
Qed.

Lemma contract_kind_detection_witness :
  fst (getContractKind SampleChain.chain Sample.artist) = Some erc1155.
Proof.
  apply (proj1 (proj2 (contract_kind_detection SampleChain.chain Sample.artist))).
  split; [discriminate | reflexivity].
Defined.

Lemma textOrUndefined_truthy (r : Result Z) (z : Z) :
  r = Ok z -> truthyText (textOrUndefined r) = Some (toString z).
Proof.
  intros ->. simpl.
  destruct (String.eqb_spec (toString z) EmptyString) as [E|E];
    [now apply toString_nonempty in E | reflexivity].
Qed.

Lemma getMaxSupply_order_aux (chain : Chain) (contract : string) :
  (forall z,
     view_maxSupply (chain contract) = Ok z ->
     getMaxSupply chain contract = (Some (toString z), [CallMaxSupply]))
  /\ (forall e z,
        view_maxSupply (chain contract) = Err e ->
        view_MAX_SUPPLY (chain contract) = Ok z ->
        getMaxSupply chain contract
        = (Some (toString z), [CallMaxSupply; CallMAX_SUPPLY]))
  /\ (fst (getMaxSupply chain contract) = None <->
        (exists e, view_maxSupply (chain contract) = Err e)
        /\ (exists e, view_MAX_SUPPLY (chain contract) = Err e))
  /\ (forall s,
        fst (getMaxSupply chain contract) = Some s ->
        exists z,
          bn (JsString s) = Ok z /\ s = toString z
          /\ (view_maxSupply (chain contract) = Ok z
              \/ view_MAX_SUPPLY (chain contract) = Ok z)).
Proof.
  unfold getMaxSupply.
  destruct (view_maxSupply (chain contract)) as [z1|e1] eqn:H1.
  - rewrite (textOrUndefined_truthy (Ok z1) z1 eq_refl).
    split; [|split; [|split]].
    + now intros z [= <-].
    + intros e z H. discriminate H.
    + simpl. split; [discriminate | intros [[e H] _]; discriminate H].
    + simpl. intros s [= <-]. exists z1.
      split; [apply fromString_toString | split; [reflexivity | now left]].
  - simpl truthyText. cbv iota. split; [|split; [|split]].
    + intros z H. discriminate H.
    + now intros e z _ ->.
    + simpl. destruct (view_MAX_SUPPLY (chain contract)) as [z2|e2]; simpl.
      * split; [discriminate | intros [_ [e H]]; discriminate H].
      * split; [|reflexivity]. intros _. split; eexists; reflexivity.
    + simpl. destruct (view_MAX_SUPPLY (chain contract)) as [z2|e2]; simpl.
      * intros s [= <-]. exists z2.
        split; [apply fromString_toString | split; [reflexivity | now right]].
      * discriminate.
Qed.

(** X19.  [getMaxSupply] returns what [maxSupply()] reports whenever that
    call succeeds, a report of zero included, and then does not call
    [MAX_SUPPLY()]; only when [maxSupply()] fails does it call
    [MAX_SUPPLY()] and return its report, or nothing when that fails too.
    Whatever it returns is decimal text that [bn] reads back as the
    reported integer. *)
Theorem getMaxSupply_order :
  forall (chain : Chain) (contract : string),
    (forall z,
       view_maxSupply (chain contract) = Ok z ->
       getMaxSupply chain contract = (Some (toString z), [CallMaxSupply]))
    /\ (forall e z,
          view_maxSupply (chain contract) = Err e ->
          view_MAX_SUPPLY (chain contract) = Ok z ->
          getMaxSupply chain contract
          = (Some (toString z), [CallMaxSupply; CallMAX_SUPPLY]))
    /\ (fst (getMaxSupply chain contract) = None <->
          (exists e, view_maxSupply (chain contract) = Err e)
          /\ (exists e, view_MAX_SUPPLY (chain contract) = Err e))
    /\ (forall s,
          fst (getMaxSupply chain contract) = Some s ->
          exists z,
            bn (JsString s) = Ok z
            /\ (view_maxSupply (chain contract) = Ok z
                \/ view_MAX_SUPPLY (chain contract) = Ok z)).
Proof.
  intros chain contract.
  destruct (getMaxSupply_order_aux chain contract) as [H1 [H2 [H3 H4]]].
  split; [exact H1|]. split; [exact H2|]. split; [exact H3|].
  intros s Hs. destruct (H4 s Hs) as [z [Hz [_ Hv]]]. now exists z.
Qed.

Lemma getMaxSupply_order_witness :
  getMaxSupply SampleChain.chain Sample.artist
  = (Some "0", [CallMaxSupply; CallMAX_SUPPLY]).
Proof.
  apply (proj1 (proj2 (getMaxSupply_order SampleChain.chain Sample.artist))
           DataUnavailable 0); reflexivity.
Defined.

(** X20.  Sanitizing what [getMaxSupply] returns never raises: the result
    is absent when both calls fail or the reported value is one of the six
    sentinel values (zero among them, although [getMaxSupply] itself keeps
    a report of zero), and is the decimal text of the reported value
    otherwise. *)
Theorem sanitized_max_supply :
  forall (chain : Chain) (contract : string),
    (fst (getMaxSupply chain contract) = None ->
     toSafeNumber (option_map JsString (fst (getMaxSupply chain contract)))
     = Ok None)
    /\ (forall s z,
          fst (getMaxSupply chain contract) = Some s -> bn (JsString s) = Ok z ->
          (In z sentinelValues ->
           toSafeNumber (option_map JsString (fst (getMaxSupply chain contract)))
           = Ok None)
          /\ (~ In z sentinelValues ->
              toSafeNumber (option_map JsString (fst (getMaxSupply chain contract)))
              = Ok (Some s)))
    /\ (forall e,
          toSafeNumber (option_map JsString (fst (getMaxSupply chain contract)))
          <> Err e).
Proof.
  intros chain contract.
  destruct (fst (getMaxSupply chain contract)) as [s|] eqn:Hs.
  - destruct (proj2 (proj2 (proj2 (getMaxSupply_order_aux chain contract))) s Hs)
      as [z0 [Hz0 [Hs0 _]]].
    cbn [option_map]. rewrite (toSafeNumber_of_value (JsString s) z0 Hz0).
    subst s. split; [discriminate|]. split.
    + intros s' z [= <-] Hz. rewrite Hz0 in Hz. injection Hz as <-. split.
      * intros Hin. apply includes_sentinels in Hin. now rewrite Hin.
      * intros Hin. apply includes_sentinels_false in Hin. now rewrite Hin.
    + intros e. destruct (includes sentinels (toString z0)); discriminate.
  - cbn [option_map]. split; [reflexivity|]. split.
    + intros s z H. discriminate H.
    + intros e. discriminate.
Qed.

Lemma sanitized_max_supply_witness :
  toSafeNumber
    (option_map JsString (fst (getMaxSupply SampleChain.chain Sample.bob)))
  = Ok None.
Proof.
  apply (proj1 (proj1 (proj2 (sanitized_max_supply SampleChain.chain Sample.bob))
                  Sample.uint256_max (2 ^ 256 - 1) eq_refl eq_refl)).
  vm_compute. tauto.
Defined.

(** ** Metadata addresses *)

Lemma startsWith_split (s p : string) :
  startsWith s p = true -> s = (p ++ slice (String.length p) s)%string.
Proof.
  revert s. induction p as [|a p IH]; intros s H; simpl in *; [reflexivity|].
  destruct s as [|b s]; [discriminate H|].
  apply andb_true_iff in H. destruct H as [Hab H].
  apply Ascii.eqb_eq in Hab. subst b. f_equal. now apply IH.
Qed.

(** X21.  [fetchMetadata] makes one request.  For an address starting
    with [ipfs://] it asks the [ipfs.io] gateway for the same path, so it
    does exactly what it does on the gateway address itself; any other
    address (one that does not start with these seven characters in lower
    case) is requested as given.  It never requests an [ipfs://]
    address, and it returns the [data] of the response or fails as the
    request fails. *)
Theorem fetchMetadata_requests :
  forall (Data : Type) (get : string -> Result (Response Data)) (url : string),
    (forall path,
       url = ("ipfs://" ++ path)%string ->
       fetchMetadata get url
       = fetchMetadata get ("https://ipfs.io/ipfs/" ++ path)%string
       /\ snd (fetchMetadata get url) = [("https://ipfs.io/ipfs/" ++ path)%string])
    /\ (startsWith url "ipfs://" = false ->
        fetchMetadata get url = (mapR data (get url), [url]))
    /\ (startsWith url "ipfs://" = true ->
        exists path, url = ("ipfs://" ++ path)%string)
    /\ (forall requested,
          In requested (snd (fetchMetadata get url)) ->
          startsWith requested "ipfs://" = false
          /\ fst (fetchMetadata get url) = mapR data (get requested)).
Proof.
  intros Data get url. split; [|split; [|split]].
  - intros path ->. split; reflexivity.
  - intros H. unfold fetchMetadata. rewrite H.
    now destruct (get url).
  - intros H. exists (slice 7 url). now apply startsWith_split in H.
  - intros requested Hin. unfold fetchMetadata in *.
    destruct (startsWith url "ipfs://") eqn:H; simpl in Hin;
      destruct Hin as [<- | []]; split; trivial;
      match goal with
      | |- fst _ = _ => cbn [fst]; now destruct (get _)
      | _ => reflexivity
      end.
Qed.

Lemma fetchMetadata_requests_witness :
  fetchMetadata (SampleChain.gateway "{}") "ipfs://Qm/1.json"
  = (Ok "{}", ["https://ipfs.io/ipfs/Qm/1.json"])
  /\ fetchMetadata (SampleChain.gateway "{}") "IPFS://Qm/1.json"
     = (Err DataUnavailable, ["IPFS://Qm/1.json"]).
Proof.
  split.
  - destruct (proj1 (fetchMetadata_requests string (SampleChain.gateway "{}")
                       "ipfs://Qm/1.json") "Qm/1.json" eq_refl) as [H _].
    rewrite H. reflexivity.
  - apply (proj1 (proj2 (fetchMetadata_requests string
                           (SampleChain.gateway "{}") "IPFS://Qm/1.json"))).
    reflexivity.
Defined.

(** ** Addresses as text and as bytes *)

Lemma hexDigit_value (n : N) :
  (n < 16)%N -> HexString.ascii_to_digit (hexDigit n) = Some n.
Proof.
  intros H. rewrite <- (N2Nat.id n) at 2. unfold hexDigit.
  assert (Hm : (N.to_nat n < 16)%nat) by lia.
  remember (N.to_nat n) as m eqn:E. clear E H n.
  do 16 (destruct m as [|m]; [reflexivity|]). lia.
Qed.

Lemma hexDecode_hexEncode (b : Buffer) : isBytes b -> hexDecode (hexEncode b) = b.
Proof.
  unfold isBytes. induction 1 as [|byte rest Hbyte Hrest IH]; [reflexivity|].
  cbn [hexEncode hexDecode].
  rewrite !hexDigit_value.
  - rewrite IH. f_equal. rewrite (N.div_mod byte 16) at 3 by discriminate.
    reflexivity.
  - apply N.mod_lt. discriminate.
  - apply N.Div0.div_lt_upper_bound. exact Hbyte.
Qed.

Lemma toBuffer_fromBuffer (b : Buffer) : isBytes b -> toBuffer (fromBuffer b) = b.
Proof.
  intros Hb. unfold toBuffer, fromBuffer. simpl slice2.
  now apply hexDecode_hexEncode.
Qed.

(** X22.  Writing an address out with [fromBuffer] and reading it back
    with [toBuffer] gives the same bytes, so the collection address that
    [getBuildInfo] hands out denotes, as the [contract] of a mint, exactly
    the stored contract; and two different byte strings are never written
    out as the same text. *)
Theorem address_text_round_trip :
  forall (b b' : Buffer),
    isBytes b ->
    toBuffer (fromBuffer b) = b
    /\ (isBytes b' -> fromBuffer b = fromBuffer b' -> b = b').
Proof.
  intros b b' Hb.
  split; [now apply toBuffer_fromBuffer|].
  intros Hb' Heq.
  rewrite <- (toBuffer_fromBuffer b Hb), <- (toBuffer_fromBuffer b' Hb').
  now rewrite Heq.
Qed.

Lemma address_text_round_trip_witness :
  toBuffer (fromBuffer [0; 171; 255]%N) = [0; 171; 255]%N.
Proof.
  apply (proj1 (address_text_round_trip [0; 171; 255]%N [] ltac:(
           repeat constructor))).
Defined.

(** ** Order parameters *)

Lemma joined_In (store : LooksRareV2.ReadStore) (id : string)
    (k : LooksRareV2.ContractRow) :
  In k (LooksRareV2.joined store id) <->
  exists c,
    In c (LooksRareV2.collections_table store)
    /\ LooksRareV2.collections_id c = id
    /\ In k (LooksRareV2.contracts_table store)
    /\ LooksRareV2.collections_contract c = LooksRareV2.contracts_address k.
Proof.
  unfold LooksRareV2.joined. rewrite in_flat_map. split.
  - intros [c [Hc Hk]]. apply filter_In in Hc. destruct Hc as [Hc Hid].
    apply filter_In in Hk. destruct Hk as [Hk Ha].
    apply String.eqb_eq in Hid. apply Buffer_eqb_eq in Ha. now exists c.
  - intros [c [Hc [Hid [Hk Ha]]]]. exists c. split; apply filter_In; split;
      trivial; [now apply String.eqb_eq | now apply Buffer_eqb_eq].
Qed.

Lemma collectionResult_spec (store : LooksRareV2.ReadStore) (id : string) :
  LooksRareV2.collectionResult store id =
    if LooksRareV2.answers store
    then match LooksRareV2.joined store id with
         | [] => Ok None
         | r :: _ => Ok (Some r)
         end
    else Err DataUnavailable.
Proof.
  unfold LooksRareV2.collectionResult.
  destruct (LooksRareV2.answers store); [|reflexivity].
  now destruct (LooksRareV2.joined store id) as [|r [|r' l]].
Qed.

(** X23.  [getBuildInfo] fails with "could not fetch token collection"
    exactly when the store answers and no collection with the given
    identifier has a row in the contracts table, which includes a known
    collection whose contract is not registered; it fails with the store's
    own failure exactly when the store does not answer; and it builds the
    parameters as soon as the store answers and one such pair of rows
    exists. *)
Theorem getBuildInfo_failures :
  forall (weth : string) (store : LooksRareV2.ReadStore)
         (options : LooksRareV2.BaseOrderBuildOptions) (id : string)
         (side : LooksRareV2.Side),
    (LooksRareV2.getBuildInfo weth store options id side
     = LooksRareV2.Failed LooksRareV2.CouldNotFetchTokenCollection <->
       LooksRareV2.answers store = true
       /\ forall c k,
            In c (LooksRareV2.collections_table store) ->
            In k (LooksRareV2.contracts_table store) ->
            LooksRareV2.collections_id c = id ->
            LooksRareV2.collections_contract c <> LooksRareV2.contracts_address k)
    /\ (forall e,
          LooksRareV2.getBuildInfo weth store options id side
          = LooksRareV2.Failed (LooksRareV2.StoreFailure e) <->
          LooksRareV2.answers store = false /\ e = DataUnavailable)
    /\ (LooksRareV2.answers store = true ->
        forall c k,
          In c (LooksRareV2.collections_table store) ->
          In k (LooksRareV2.contracts_table store) ->
          LooksRareV2.collections_id c = id ->
          LooksRareV2.collections_contract c = LooksRareV2.contracts_address k ->
          exists info,
            LooksRareV2.getBuildInfo weth store options id side
            = LooksRareV2.Built info).
Proof.
  intros weth store options id side.
  unfold LooksRareV2.getBuildInfo. rewrite collectionResult_spec.
  destruct (LooksRareV2.answers store) eqn:Hans.
  - destruct (LooksRareV2.joined store id) as [|r rest] eqn:Hj.
    + split; [|split].
      * split; [|reflexivity]. intros _. split; [reflexivity|].
        intros c k Hc Hk Hid Heq.
        assert (Hin : In k (LooksRareV2.joined store id)).
        { apply joined_In. now exists c. }
        rewrite Hj in Hin. contradiction.
      * intros e. split; [discriminate | intros [H _]; discriminate H].
      * intros _ c k Hc Hk Hid Heq.
        assert (Hin : In k (LooksRareV2.joined store id)).
        { apply joined_In. now exists c. }
        rewrite Hj in Hin. contradiction.
    + split; [|split].
      * split; [discriminate|]. intros [_ Hnone].
        assert (Hin : In r (LooksRareV2.joined store id)) by (rewrite Hj; now left).
        apply joined_In in Hin. destruct Hin as [c [Hc [Hid [Hk Heq]]]].
        elim (Hnone c r Hc Hk Hid Heq).
      * intros e. split; [discriminate | intros [H _]; discriminate H].
      * intros _ c k _ _ _ _. eexists. reflexivity.
  - split; [|split].
    + split; [discriminate | intros [H _]; discriminate H].
    + intros e. split.
      * intros [= <-]. now split.
      * intros [_ ->]. reflexivity.
    + discriminate.
Qed.

Lemma getBuildInfo_failures_witness :
  LooksRareV2.getBuildInfo "weth" SampleChain.store SampleChain.options
    "orphan" LooksRareV2.sell
  = LooksRareV2.Failed LooksRareV2.CouldNotFetchTokenCollection.
Proof.
  apply (proj1 (getBuildInfo_failures "weth" SampleChain.store
                  SampleChain.options "orphan" LooksRareV2.sell)).
  split; [reflexivity|].
  intros c k Hc Hk Hid. simpl in Hc, Hk.
  destruct Hk as [<- | []].
  destruct Hc as [<- | [<- | []]]; [discriminate Hid|].
  vm_compute. discriminate.
Defined.

(** X24.  Whatever [getBuildInfo] builds is about a contract that the
    store joins to a collection with the given identifier: the order's
    collection is that contract's address written out (reading it back
    gives the stored bytes), its type is ERC-721 exactly when the
    contract's kind is the text [erc721] and ERC-1155 for every other kind,
    a missing one included, and it is an ask exactly for the sell side.
    The maker, the price, the currency and the two times are passed on as
    given, missing times included; the item is always ["0"] and the amount
    always one. *)
Theorem getBuildInfo_built :
  forall (weth : string) (store : LooksRareV2.ReadStore)
         (options : LooksRareV2.BaseOrderBuildOptions) (id : string)
         (side : LooksRareV2.Side) (info : LooksRareV2.OrderBuildInfo),
    LooksRareV2.getBuildInfo weth store options id side = LooksRareV2.Built info ->
    (exists c k,
       In c (LooksRareV2.collections_table store)
       /\ LooksRareV2.collections_id c = id
       /\ In k (LooksRareV2.contracts_table store)
       /\ LooksRareV2.collections_contract c = LooksRareV2.contracts_address k
       /\ LooksRareV2.collection (LooksRareV2.params info)
          = fromBuffer (LooksRareV2.contracts_address k)
       /\ (isBytes (LooksRareV2.contracts_address k) ->
           toBuffer (LooksRareV2.collection (LooksRareV2.params info))
           = LooksRareV2.collections_contract c)
       /\ (LooksRareV2.collectionType (LooksRareV2.params info) = LooksRareV2.ERC721
           <-> LooksRareV2.contracts_kind k = Some "erc721")
       /\ (LooksRareV2.collectionType (LooksRareV2.params info) = LooksRareV2.ERC1155
           <-> LooksRareV2.contracts_kind k <> Some "erc721"))
    /\ (LooksRareV2.quoteType (LooksRareV2.params info) = LooksRareV2.Ask
        <-> side = LooksRareV2.sell)
    /\ LooksRareV2.signer (LooksRareV2.params info) = LooksRareV2.maker options
    /\ LooksRareV2.price (LooksRareV2.params info) = LooksRareV2.weiPrice options
    /\ LooksRareV2.currency (LooksRareV2.params info) = weth
    /\ LooksRareV2.startTime (LooksRareV2.params info)
       = LooksRareV2.listingTime options
    /\ LooksRareV2.endTime (LooksRareV2.params info)
       = LooksRareV2.expirationTime options
    /\ LooksRareV2.itemId (LooksRareV2.params info) = "0"
    /\ LooksRareV2.amount (LooksRareV2.params info) = 1.
Proof.
  intros weth store options id side info.
  unfold LooksRareV2.getBuildInfo. rewrite collectionResult_spec.
  destruct (LooksRareV2.answers store); [|discriminate].
  destruct (LooksRareV2.joined store id) as [|r rest] eqn:Hj; [discriminate|].
  intros [= <-]. cbn.
  assert (Hin : In r (LooksRareV2.joined store id)) by (rewrite Hj; now left).
  apply joined_In in Hin. destruct Hin as [c [Hc [Hid [Hk Heq]]]].
  split.
  - exists c, r. split; [exact Hc|]. split; [exact Hid|]. split; [exact Hk|].
    split; [exact Heq|]. split; [reflexivity|].
    split; [intros Hb; rewrite Heq; now apply toBuffer_fromBuffer|].
    unfold LooksRareV2.isErc721.
    destruct (LooksRareV2.contracts_kind r) as [kind|].
    + destruct (String.eqb_spec kind "erc721") as [-> | Hne]; split; split;
        try reflexivity; try discriminate; try congruence;
        try (intros H; now elim H).
    + split; split; try reflexivity; try discriminate.
  - split; [|now repeat split].
    destruct side; split; try reflexivity; discriminate.
Qed.

Lemma getBuildInfo_built_witness :
  LooksRareV2.collectionType
    (LooksRareV2.params
       {| LooksRareV2.params :=
            {| LooksRareV2.quoteType := LooksRareV2.Bid;
               LooksRareV2.collection := Sample.artist;
               LooksRareV2.collectionType := LooksRareV2.ERC1155;
               LooksRareV2.signer := Sample.alice;
               LooksRareV2.price := "1000";
               LooksRareV2.itemId := "0";
               LooksRareV2.amount := 1;
               LooksRareV2.currency := "weth";
               LooksRareV2.startTime := Some 1700000000;
               LooksRareV2.endTime := None |} |})
  = LooksRareV2.ERC1155
  /\ LooksRareV2.startTime
       (LooksRareV2.params
          {| LooksRareV2.params :=
               {| LooksRareV2.quoteType := LooksRareV2.Bid;
                  LooksRareV2.collection := Sample.artist;
                  LooksRareV2.collectionType := LooksRareV2.ERC1155;
                  LooksRareV2.signer := Sample.alice;
                  LooksRareV2.price := "1000";
                  LooksRareV2.itemId := "0";
                  LooksRareV2.amount := 1;
                  LooksRareV2.currency := "weth";
                  LooksRareV2.startTime := Some 1700000000;
                  LooksRareV2.endTime := None |} |})
     = LooksRareV2.listingTime SampleChain.options.
Proof.
  destruct (getBuildInfo_built "weth" SampleChain.store SampleChain.options
              "art" LooksRareV2.buy _ eq_refl)
    as [[c [k [_ [_ [Hk [_ [_ [_ [_ Hty]]]]]]]]] [_ [_ [_ [_ [Hst _]]]]]].
  split; [|exact Hst].
  apply Hty. simpl in Hk. destruct Hk as [<- | []]. discriminate.
Defined.

(** ** Hexadecimal text *)

(** [bn] reads signed hexadecimal text and takes the bare prefix for no
    number; so does everything built on it. *)
Example hexadecimal_text :
  bn (JsString "-0x10") = Ok (-16)
  /\ bn (JsString "0xAb") = Ok 171
  /\ bn (JsString "-0x0") = Ok 0
  /\ bn (JsString "0x") = Err InvalidBigNumber
  /\ bn (JsString "-0x") = Err InvalidBigNumber
  /\ toSafeTimestamp (Some (JsString "-0x10")) = Ok (Some (-16))
  /\ toSafeNumber (Some (JsString "-0x10")) = Ok (Some "-16")
  /\ getStatus Sample.clock (Sample.capped "0x") Sample.db
     = (Err InvalidBigNumber, [CollectionTokenCount Sample.artist])
  /\ outcome (getStatus Sample.clock (Sample.capped "-0x1") Sample.db)
     = Ok (closedBecause max_supply_exceeded).
Proof. repeat split. Qed.
